(** * generate_threat_intelligence_db.py: a shallow embedding and its properties

    The script writes a binary "threat intelligence database": a 25-byte
    header, then PHONE, DOMAIN and SIG records produced by three counted
    loops, then META padding blocks produced by a while loop.

    The embedding keeps the script's shape.  Python integers are [Z]; [str]
    values are [string] (every literal of the script is ASCII, so the UTF-8
    encoding of a string is its list of bytes); [bytes] values are
    [list byte].  The open file and the random sources are threaded through
    a state-and-error monad.  Calls to [print], [mkdir] and path arithmetic
    do not touch the file content and are left out. *)

From Stdlib Require Import ZArith NArith List String Ascii Strings.Byte Bool Lia.
From Stdlib Require Import DecimalString.
Import ListNotations.
Local Open Scope Z_scope.

(** ** Python primitives used by the script *)

Module Py.

(** [str(n)] for an integer. *)
Definition str (n : Z) : string := NilZero.string_of_int (Z.to_int n).

(** [s.encode('utf-8')] on an ASCII string, where the encoding is the
    string's own characters.  Every string the script encodes is ASCII;
    a string with a lone surrogate, on which Python raises
    [UnicodeEncodeError], has no counterpart among these strings. *)
Definition encode (s : string) : list byte := list_byte_of_string s.

(** The newline character and the byte it encodes to. *)
Definition nl : string := String (ascii_of_nat 10) EmptyString.

(** [s.replace(old, new)] where [old] and [new] are single characters. *)
Fixpoint replace (old new : ascii) (s : string) : string :=
  match s with
  | EmptyString => EmptyString
  | String c s' =>
      String (if Ascii.eqb c old then new else c) (replace old new s')
  end.

(** [s * n]: the string repeated [n] times, empty when [n <= 0]. *)
Definition str_mul (s : string) (n : Z) : string :=
  N.iter (Z.to_N n) (fun acc => s ++ acc)%string EmptyString.

(** [''.join(parts)]. *)
Definition join (parts : list string) : string :=
  fold_right String.append EmptyString parts.

(** The byte whose value is [z mod 256]. *)
Definition byte_of_Z (z : Z) : byte :=
  match Byte.of_N (Z.to_N (z mod 256)) with
  | Some b => b
  | None => x00
  end.

Definition Z_of_byte (b : byte) : Z := Z.of_N (Byte.to_N b).

(** [struct.pack("<Q", n)]: eight bytes, least significant first;
    [struct.error] (here [None]) when [n] is not an unsigned 64-bit
    value. *)
Definition struct_pack_le_Q (n : Z) : option (list byte) :=
  if (0 <=? n) && (n <? 2 ^ 64)
  then Some (map (fun i => byte_of_Z (Z.shiftr n (8 * i))) [0; 1; 2; 3; 4; 5; 6; 7])
  else None.

(** Reading a little-endian byte string back as an unsigned integer. *)
Fixpoint unpack_le (bs : list byte) : Z :=
  match bs with
  | [] => 0
  | b :: bs' => Z_of_byte b + 256 * unpack_le bs'
  end.

End Py.

(** ** hashlib.sha256 (FIPS 180-4), on 32-bit words held in [Z] *)

Module Sha256.

Definition wrap (x : Z) : Z := x mod 2 ^ 32.
Definition add32 (x y : Z) : Z := wrap (x + y).
Definition rotr (n x : Z) : Z :=
  Z.lor (Z.shiftr x n) (wrap (Z.shiftl x (32 - n))).
Definition shr (n x : Z) : Z := Z.shiftr x n.
Definition not32 (x : Z) : Z := Z.lxor x (2 ^ 32 - 1).

Definition Ch (x y z : Z) : Z := Z.lxor (Z.land x y) (Z.land (not32 x) z).
Definition Maj (x y z : Z) : Z :=
  Z.lxor (Z.lxor (Z.land x y) (Z.land x z)) (Z.land y z).
Definition Sigma0 (x : Z) : Z := Z.lxor (Z.lxor (rotr 2 x) (rotr 13 x)) (rotr 22 x).
Definition Sigma1 (x : Z) : Z := Z.lxor (Z.lxor (rotr 6 x) (rotr 11 x)) (rotr 25 x).
Definition sigma0 (x : Z) : Z := Z.lxor (Z.lxor (rotr 7 x) (rotr 18 x)) (shr 3 x).
Definition sigma1 (x : Z) : Z := Z.lxor (Z.lxor (rotr 17 x) (rotr 19 x)) (shr 10 x).

(** The first sixty-four primes. *)
Definition is_prime (n : nat) : bool :=
  forallb (fun d => negb (Nat.eqb (Nat.modulo n d) 0)) (seq 2 (n - 2)).

Definition primes : list Z := map Z.of_nat (filter is_prime (seq 2 310)).

(** The largest [r] with [r ^ 3 <= n], one bit at a time from bit
    [bits - 1] down. *)
Fixpoint icbrt (bits : nat) (n r : Z) : Z :=
  match bits with
  | O => r
  | S b =>
      let r' := Z.lor r (Z.shiftl 1 (Z.of_nat b)) in
      icbrt b n (if r' * r' * r' <=? n then r' else r)
  end.

(** The first 32 bits of the fractional part of the cube root, and of the
    square root, of [p]. *)
Definition frac_cbrt (p : Z) : Z := wrap (icbrt 36 (p * 2 ^ 96) 0).
Definition frac_sqrt (p : Z) : Z := wrap (Z.sqrt (p * 2 ^ 64)).

(** The round constants: from the cube roots of the sixty-four primes. *)
Definition K : list Z := Eval vm_compute in map frac_cbrt primes.

(** The eight working variables, and the chaining value. *)
Record regs := Regs { ra : Z; rb : Z; rc : Z; rd : Z; re : Z; rf : Z; rg : Z; rh : Z }.

(** The initial chaining value: from the square roots of the first eight
    primes. *)
Definition H0 : regs :=
  Eval vm_compute in
    match map frac_sqrt (firstn 8 primes) with
    | [a; b; c; d; e; f; g; h] => Regs a b c d e f g h
    | _ => Regs 0 0 0 0 0 0 0 0
    end.

(** Big-endian words. *)
Definition be32 (x : Z) : list byte :=
  [ Py.byte_of_Z (Z.shiftr x 24); Py.byte_of_Z (Z.shiftr x 16);
    Py.byte_of_Z (Z.shiftr x 8); Py.byte_of_Z x ].

Definition word_of (b3 b2 b1 b0 : byte) : Z :=
  Z.lor (Z.shiftl (Py.Z_of_byte b3) 24)
    (Z.lor (Z.shiftl (Py.Z_of_byte b2) 16)
       (Z.lor (Z.shiftl (Py.Z_of_byte b1) 8) (Py.Z_of_byte b0))).

Fixpoint words_of (bs : list byte) : list Z :=
  match bs with
  | b3 :: b2 :: b1 :: b0 :: rest => word_of b3 b2 b1 b0 :: words_of rest
  | _ => []
  end.

(** Padding: the message, a 0x80 byte, zero bytes up to 56 modulo 64, and
    the bit length as a 64-bit big-endian integer. *)
Definition pad (msg : list byte) : list byte :=
  let len := Z.of_nat (List.length msg) in
  let zeros := Z.to_nat ((55 - len) mod 64) in
  msg ++ [x80] ++ repeat x00 zeros
      ++ be32 (Z.shiftr (8 * len) 32) ++ be32 (8 * len).

(** The message schedule: sixteen words of the block, extended to
    sixty-four.  The list is kept most recent first while it grows. *)
Definition schedule_step (rev_w : list Z) : list Z :=
  match rev_w with
  | w1 :: w2 :: _ =>
      let w7 := nth 6 rev_w 0 in
      let w15 := nth 14 rev_w 0 in
      let w16 := nth 15 rev_w 0 in
      add32 (add32 (add32 (sigma1 w2) w7) (sigma0 w15)) w16 :: rev_w
  | _ => rev_w
  end.

Definition schedule (block : list Z) : list Z :=
  rev (Nat.iter 48 schedule_step (rev block)).

Definition round (s : regs) (kw : Z * Z) : regs :=
  let (k, w) := kw in
  let t1 := add32 (add32 (add32 (add32 (rh s) (Sigma1 (re s))) (Ch (re s) (rf s) (rg s))) k) w in
  let t2 := add32 (Sigma0 (ra s)) (Maj (ra s) (rb s) (rc s)) in
  Regs (add32 t1 t2) (ra s) (rb s) (rc s) (add32 (rd s) t1) (re s) (rf s) (rg s).

Definition compress (h : regs) (block : list Z) : regs :=
  let s := fold_left round (combine K (schedule block)) h in
  Regs (add32 (ra h) (ra s)) (add32 (rb h) (rb s)) (add32 (rc h) (rc s))
       (add32 (rd h) (rd s)) (add32 (re h) (re s)) (add32 (rf h) (rf s))
       (add32 (rg h) (rg s)) (add32 (rh h) (rh s)).

Fixpoint process (nblocks : nat) (bs : list byte) (h : regs) : regs :=
  match nblocks with
  | O => h
  | S n => process n (skipn 64 bs) (compress h (words_of (firstn 64 bs)))
  end.

Definition output (h : regs) : list byte :=
  be32 (ra h) ++ be32 (rb h) ++ be32 (rc h) ++ be32 (rd h)
    ++ be32 (re h) ++ be32 (rf h) ++ be32 (rg h) ++ be32 (rh h).

(** [hashlib.sha256(msg).digest()] *)
Definition digest (msg : list byte) : list byte :=
  let p := pad msg in
  output (process (Nat.div (List.length p) 64) p H0).

End Sha256.

(** ** The open file *)

(** A file opened with mode ['wb']: its content and the position of the
    next write.  A write replaces the bytes under it and extends the file
    when it runs past the end.  The script never seeks, so the position is
    never beyond the end of the content; the zero bytes a real file gets
    in the gap when it is are not modelled. *)
Record file := File { f_data : list byte; f_pos : nat }.

(** [open(path, 'wb')]: whatever [path] held before is discarded. *)
Definition open_wb (old : list byte) : file := File [] 0.

Definition file_write (bs : list byte) (f : file) : file :=
  File (firstn (f_pos f) (f_data f) ++ bs
          ++ skipn (f_pos f + List.length bs) (f_data f))
       (f_pos f + List.length bs).

(** ** Random sources *)

(** What the script draws from: CPython's [random] module, whose
    [choice] and [randint] both reduce to [_randbelow(n)] and whose
    [random()] is [k / 2^53] for a 53-bit integer [k]; and [os.urandom].
    The laws are the documented ranges; nothing is said about the
    distribution. *)
Class RandomSource (G : Type) : Type := {
  randbelow : Z -> G -> Z * G;
  random53 : G -> Z * G;
  urandom : nat -> G -> list byte * G;
  randbelow_range : forall n g, 0 < n -> 0 <= fst (randbelow n g) < n;
  random53_range : forall g, 0 <= fst (random53 g) < 2 ^ 53;
  urandom_length : forall n g, List.length (fst (urandom n g)) = n
}.

(** A source that replays a tape of integers; an exhausted tape yields
    zeros. *)
Definition tape := list Z.

Definition draw (t : tape) : Z * tape :=
  match t with
  | [] => (0, [])
  | x :: t' => (x, t')
  end.

Fixpoint draw_bytes (n : nat) (t : tape) : list byte * tape :=
  match n with
  | O => ([], t)
  | S n' =>
      let (x, t1) := draw t in
      let (bs, t2) := draw_bytes n' t1 in
      (Py.byte_of_Z x :: bs, t2)
  end.

(** ** The monad of the script: state (random source and file) and errors *)

Inductive error := IndexError | ValueError | StructError | OutOfFuel.

Section Script.

Context {G : Type} `{RS : RandomSource G}.

Record world := World { rng : G; out : file }.

Inductive result (A : Type) :=
| Ok (a : A) (w : world)
| Raise (e : error).
Arguments Ok {A} a w.
Arguments Raise {A} e.

Definition M (A : Type) : Type := world -> result A.

Definition ret {A} (a : A) : M A := fun w => Ok a w.
Definition raise {A} (e : error) : M A := fun _ => Raise e.
Definition bind {A B} (m : M A) (k : A -> M B) : M B :=
  fun w => match m w with
           | Ok a w' => k a w'
           | Raise e => Raise e
           end.

Notation "x <- m ;; k" := (bind m (fun x => k))
  (at level 61, m at next level, right associativity).
Notation "m ;;; k" := (bind m (fun _ => k))
  (at level 61, right associativity).

(** [len(b)] *)
Definition len (b : list byte) : Z := Z.of_nat (List.length b).

(** [f.write(b)] *)
Definition f_write (b : list byte) : M unit :=
  fun w => Ok tt (World (rng w) (file_write b (out w))).

Definition with_rng {A} (op : G -> A * G) : M A :=
  fun w => let (a, g) := op (rng w) in Ok a (World g (out w)).

(** [random.choice(seq)] *)
Definition random_choice {A} (seq : list A) : M A :=
  match seq with
  | [] => raise IndexError
  | _ :: _ =>
      i <- with_rng (randbelow (Z.of_nat (List.length seq))) ;;
      match nth_error seq (Z.to_nat i) with
      | Some x => ret x
      | None => raise IndexError
      end
  end.

(** [random.randint(a, b)] *)
Definition random_randint (a b : Z) : M Z :=
  if b <? a then raise ValueError
  else r <- with_rng (randbelow (b - a + 1)) ;; ret (a + r).

(** [random.random()], as the integer [k] of the float [k / 2^53]. *)
Definition random_random : M Z := with_rng random53.

(** [x < c] for [x = k / 2^53] and a float constant [c = c54 / 2^54]. *)
Definition float_lt (k c54 : Z) : bool := 2 * k <? c54.

(** The doubles nearest to 0.3 and 0.2, as numerators over [2^54]. *)
Definition float_0_3 : Z := 5404319552844595.
Definition float_0_2 : Z := 3602879701896397.

(** [os.urandom(n)] *)
Definition os_urandom (n : Z) : M (list byte) :=
  if n <? 0 then raise ValueError else with_rng (urandom (Z.to_nat n)).

(** [for _ in range(count)] around a body that updates the loop's
    variables [s]. *)
Definition for_range {S : Type} (count : Z) (body : S -> M S) (s0 : S) : M S :=
  N.iter (Z.to_N count) (fun acc => s <- acc ;; body s) (ret s0).

(** [[e for _ in range(n)]]: [e] evaluated [n] times, left to right. *)
Fixpoint collect {A} (n : nat) (e : M A) : M (list A) :=
  match n with
  | O => ret []
  | S n' => x <- e ;; xs <- collect n' e ;; ret (x :: xs)
  end.

(** *** The script's constants *)

Definition TARGET_SIZE_BYTES : Z := 750 * 1024 * 1024.

Definition COUNTRY_PREFIXES : list string :=
  [ "234"; "233"; "225"; "221"; "880"; "92"; "91"; "63"; "855"; "856";
    "95"; "66"; "84"; "62"; "60"; "81"; "82"; "98"; "966"; "971";
    "20"; "27"; "254"; "237"; "212"; "351"; "34"; "39"; "33"; "49";
    "31"; "32"; "48"; "358"; "353"; "44"; "61"; "64"; "65"; "55";
    "52"; "57"; "58"; "54"; "51"; "56"; "46"; "47"; "421"; "86";
    "7"; "380"; "90"; "81"; "82"; "66"; "84"; "65"; "60"; "63" ]%string.

Definition DOMAIN_PATTERNS : list string :=
  [ "paypal"; "amazon"; "google"; "microsoft"; "apple"; "netflix"; "bank";
    "secure"; "login"; "verify"; "account"; "support"; "official"; "gov";
    "irs"; "hmrc"; "fedex"; "ups"; "dhl"; "usps"; "royal-mail"; "customs";
    " bitcoin"; "crypto"; "wallet"; "investment"; "refund"; "prize" ]%string.

Definition tlds : list string :=
  [ ".com"; ".net"; ".org"; ".tk"; ".ml"; ".ga"; ".xyz"; ".top"; ".click" ]%string.

Definition subdomains : list string :=
  [ ""; "secure-"; "login-"; "verify-"; "account-"; "support-" ]%string.

Definition phrases : list string :=
  [ "otp"; "verification code"; "account locked"; "urgent"; "click here";
    "congratulations"; "you have won"; "claim your"; "free gift"; "bank";
    "pay now"; "send money"; "wire transfer"; "bitcoin"; "crypto";
    "refund"; "overcharge"; "verify"; "confirm"; "suspended"; "expires" ]%string.

(** *** The script's functions *)

Definition phrase_hash (s : string) : list byte :=
  firstn 16 (Sha256.digest (Py.encode s)).

Definition phone_body (written : Z) : M Z :=
  prefix <- random_choice COUNTRY_PREFIXES ;;
  suffix_len <- random_randint 6 12 ;;
  r <- random_random ;;
  suffix <- (if float_lt r float_0_3 then
               d <- random_randint 0 9 ;;
               let digit := Py.str d in
               ret (Py.str_mul digit suffix_len)
             else
               ds <- collect (Z.to_nat suffix_len)
                       (d <- random_randint 0 9 ;; ret (Py.str d)) ;;
               ret (Py.join ds)) ;;
  let pattern := (prefix ++ suffix)%string in
  let record := Py.encode ("PHONE:" ++ pattern ++ Py.nl)%string in
  f_write record ;;;
  ret (written + len record).

Definition generate_phone_patterns (count : Z) : M Z :=
  for_range count phone_body 0.

Definition homoglyphs (base : string) : string :=
  Py.replace "a" "4" (Py.replace "l" "1" (Py.replace "o" "0" base)).

Definition domain_body (written : Z) : M Z :=
  base <- random_choice DOMAIN_PATTERNS ;;
  r <- random_random ;;
  let base := if float_lt r float_0_2 then homoglyphs base else base in
  tld <- random_choice tlds ;;
  sub <- random_choice subdomains ;;
  n <- random_randint 1 999 ;;
  let domain := (sub ++ base ++ Py.str n ++ tld)%string in
  let record := Py.encode ("DOMAIN:" ++ domain ++ Py.nl)%string in
  f_write record ;;;
  ret (written + len record).

Definition generate_domain_patterns (count : Z) : M Z :=
  for_range count domain_body 0.

Definition sig_body (written : Z) : M Z :=
  p <- random_choice phrases ;;
  n <- random_randint 1000 99999 ;;
  let phrase := (p ++ "_" ++ Py.str n)%string in
  let sig := phrase_hash phrase in
  let record := Py.encode "SIG:" ++ sig ++ Py.encode Py.nl in
  f_write record ;;;
  ret (written + len record).

Definition generate_phrase_signatures (count : Z) : M Z :=
  for_range count sig_body 0.

Definition block_size : Z := 4096.

(** One turn of the [while] loop of [generate_metadata_blocks]. *)
Definition meta_body (remaining written : Z) : M Z :=
  let to_write := Z.min (block_size - 6) (remaining - written) in
  data <- os_urandom to_write ;;
  let block := Py.encode "META:" ++ data in
  f_write (block ++ Py.encode Py.nl) ;;;
  ret (written + (len block + 1)).

(** [while written < remaining: ...; return written], with a bound on
    the number of turns: the loop raises [OutOfFuel] when the bound is
    used up while the condition still holds. *)
Fixpoint meta_loop (fuel : nat) (remaining written : Z) : M Z :=
  if written <? remaining then
    match fuel with
    | O => raise OutOfFuel
    | S fuel' =>
        written' <- meta_body remaining written ;;
        meta_loop fuel' remaining written'
    end
  else ret written.

(** The number of turns granted to the loop: one per 4096 bytes asked
    for, and one more. *)
Definition meta_fuel (remaining : Z) : nat := Z.to_nat (remaining / block_size + 1).

Definition generate_metadata_blocks (remaining : Z) : M Z :=
  meta_loop (meta_fuel remaining) remaining 0.

Definition magic : list byte := Py.encode "DFS_THREAT_DB_V1" ++ [x00].

Definition make_header : M (list byte) :=
  match Py.struct_pack_le_Q 0 with
  | Some count_field => ret (magic ++ count_field)
  | None => raise StructError
  end.

(** The body of [main]'s [with] block, with the target size and the
    three record counts as parameters; it returns [total]. *)
Definition write_database (target phone_count domain_count sig_count : Z) : M Z :=
  let total := 0 in
  header <- make_header ;;
  f_write header ;;;
  n <- generate_phone_patterns phone_count ;;
  let total := total + n in
  n <- generate_domain_patterns domain_count ;;
  let total := total + n in
  n <- generate_phrase_signatures sig_count ;;
  let total := total + n in
  let remaining := target - total in
  if 0 <? remaining then
    n <- generate_metadata_blocks remaining ;;
    ret (total + n)
  else ret total.

(** What a run leaves behind: the exit code, the final value of [total]
    and the file. *)
Record run := Run { exit_code : Z; total : Z; database : list byte }.

Definition run_with (target phone_count domain_count sig_count : Z)
    (g : G) (old : list byte) : result run :=
  match write_database target phone_count domain_count sig_count
          (World g (open_wb old)) with
  | Ok t w => Ok (Run 0 t (f_data (out w))) w
  | Raise e => Raise e
  end.

Definition main (g : G) (old : list byte) : result run :=
  run_with TARGET_SIZE_BYTES 2500000 2500000 6500000 g old.

End Script.

Arguments Ok {G A} a w.
Arguments Raise {G A} e.

(** ** The record formats, as the specification words them *)

Definition is_digit (c : ascii) : bool :=
  (48 <=? nat_of_ascii c)%nat && (nat_of_ascii c <=? 57)%nat.

Definition all_digits (s : string) : bool :=
  forallb is_digit (list_ascii_of_string s).

(** A non-empty string made of one digit, repeated. *)
Definition one_digit_repeated (s : string) : bool :=
  match s with
  | EmptyString => false
  | String c rest => is_digit c && forallb (Ascii.eqb c) (list_ascii_of_string rest)
  end.

Definition phone_line (rec : list byte) : Prop :=
  exists prefix suffix : string,
    rec = Py.encode ("PHONE:" ++ (prefix ++ suffix) ++ Py.nl)%string /\
    In prefix COUNTRY_PREFIXES /\
    6 <= Z.of_nat (String.length suffix) <= 12 /\
    (one_digit_repeated suffix = true \/ all_digits suffix = true).

(** The substitution o->0, l->1, a->4 applied to every character at once. *)
Definition leet (c : ascii) : ascii :=
  if Ascii.eqb c "o" then "0"%char
  else if Ascii.eqb c "l" then "1"%char
  else if Ascii.eqb c "a" then "4"%char
  else c.

Fixpoint leet_string (s : string) : string :=
  match s with
  | EmptyString => EmptyString
  | String c s' => String (leet c) (leet_string s')
  end.

Definition domain_line (rec : list byte) : Prop :=
  exists (sub base tld : string) (n : Z),
    rec = Py.encode ("DOMAIN:" ++ (sub ++ base ++ Py.str n ++ tld) ++ Py.nl)%string /\
    In tld tlds /\
    (In base DOMAIN_PATTERNS \/
     exists b0, In b0 DOMAIN_PATTERNS /\ base = leet_string b0) /\
    In sub subdomains /\
    1 <= n <= 999.

Definition sig_record (rec : list byte) : Prop :=
  exists (p : string) (n : Z),
    In p phrases /\ 1000 <= n <= 99999 /\
    rec = Py.encode "SIG:"
            ++ firstn 16 (Sha256.digest (Py.encode (p ++ "_" ++ Py.str n)%string))
            ++ Py.encode Py.nl.

Definition meta_block (rec : list byte) : Prop :=
  exists data : list byte,
    rec = (Py.encode "META:" ++ data) ++ Py.encode Py.nl /\
    1 <= Z.of_nat (List.length data) <= 4090.

(** The header: the magic tag and eight zero bytes. *)
Definition header : list byte := magic ++ repeat x00 8.

(** What [generate_metadata_blocks] returns, in closed form: [remaining]
    when it is a multiple of 4096; six bytes more when the last block is a
    truncated one; the next multiple of 4096 when fewer than six bytes are
    missing from a full last block. *)
Definition padded_size (remaining : Z) : Z :=
  if remaining <=? 0 then 0
  else
    let m := remaining mod 4096 in
    if m =? 0 then remaining
    else if m <=? 4090 then remaining + 6
    else remaining + (4096 - m).

(** A tape and a world to run the model on: the file holds the header and
    is positioned after it. *)
Definition demo_tape : tape :=
  [3; 8; 1; 5; 7; 2; 9; 4; 4; 1; 0; 2; 1000; 1; 2; 3; 4; 5; 6; 7; 8].

(** ** The tape is a random source *)

Lemma draw_bytes_length n : forall t, List.length (fst (draw_bytes n t)) = n.
Proof.
  induction n as [|n IH]; intros t; simpl; [reflexivity|].
  destruct (draw t) as [x t1]. specialize (IH t1).
  destruct (draw_bytes n t1) as [bs t2]. simpl in *. now rewrite IH.
Qed.

#[export, refine] Instance tape_source : RandomSource tape := {
  randbelow n t := let (x, t') := draw t in (x mod n, t');
  random53 t := let (x, t') := draw t in (x mod 2 ^ 53, t');
  urandom := draw_bytes
}.
Proof.
  - intros n t Hn. destruct (draw t) as [x t']. simpl.
    apply Z.mod_pos_bound. exact Hn.
  - intros t. destruct (draw t) as [x t']. simpl.
    apply Z.mod_pos_bound. reflexivity.
  - intros n t. apply draw_bytes_length.
Defined.

Definition demo_world : @world tape := World demo_tape (File header 25).

(** ** The model runs *)

Example sha256_constants :
  List.length Sha256.K = 64%nat /\
  nth 0 Sha256.K 0 = 0x428a2f98 /\ nth 63 Sha256.K 0 = 0xc67178f2 /\
  Sha256.ra Sha256.H0 = 0x6a09e667 /\ Sha256.rh Sha256.H0 = 0x5be0cd19.
Proof. repeat split. Qed.

(** The digests of FIPS 180-4's one-block and two-block test messages. *)
Example sha256_abc :
  Sha256.digest (Py.encode "abc")
  = [xba; x78; x16; xbf; x8f; x01; xcf; xea; x41; x41; x40; xde; x5d; xae; x22; x23; xb0; x03; x61; xa3; x96; x17; x7a; x9c; xb4; x10; xff; x61; xf2; x00; x15; xad].
Proof. vm_compute. reflexivity. Qed.

Example sha256_two_blocks :
  Sha256.digest
    (Py.encode "abcdbcdecdefdefgefghfghighijhijkijkljklmklmnlmnomnopnopq")
  = [x24; x8d; x6a; x61; xd2; x06; x38; xb8; xe5; xc0; x26; x93; x0c; x3e; x60; x39; xa3; x3c; xe4; x59; x64; xff; x21; x67; xf6; xec; xed; xd4; x19; xdb; x06; xc1].
Proof. vm_compute. reflexivity. Qed.

(** Draws 3, 8, 1, 5: prefix "221", seven characters, the repeated-digit
    branch (1 / 2^53 < 0.3), digit 5.  Draws 7, 2, 9, 4: prefix "63", eight
    characters, the repeated-digit branch again, digit 4. *)
Example demo_phone_run :
  generate_phone_patterns 2 demo_world
  = Ok 34 (World [4; 1; 0; 2; 1000; 1; 2; 3; 4; 5; 6; 7; 8]
              (File (header ++ Py.encode ("PHONE:2215555555" ++ Py.nl
                                            ++ "PHONE:6344444444" ++ Py.nl))
                    59)).
Proof. vm_compute. reflexivity. Qed.

(** A draw of [2^53 - 1] makes [random()] the largest float below 1: the
    digits are then drawn one by one. *)
Example demo_phone_mixed :
  generate_phone_patterns 1
    (World [0; 0; 9007199254740991; 1; 2; 3; 4; 5; 6] (File header 25))
  = Ok 16 (World [] (File (header ++ Py.encode ("PHONE:234123456" ++ Py.nl)) 41)).
Proof. vm_compute. reflexivity. Qed.

Example demo_domain_run :
  generate_domain_patterns 2 demo_world
  = Ok 56 (World [0; 2; 1000; 1; 2; 3; 4; 5; 6; 7; 8]
              (File (header ++ Py.encode ("DOMAIN:support-micr0s0ft8.net" ++ Py.nl
                                            ++ "DOMAIN:account-g00g1e2.ml" ++ Py.nl))
                    81)).
Proof. vm_compute. reflexivity. Qed.

Example demo_signature_run :
  generate_phrase_signatures 1 demo_world
  = Ok 21 (World [1; 5; 7; 2; 9; 4; 4; 1; 0; 2; 1000; 1; 2; 3; 4; 5; 6; 7; 8]
              (File (header ++ Py.encode "SIG:"
                       ++ [x38; xf1; xc3; x16; xae; xf3; xc0; x8b; x1d; x25; x0c; x45; xd5; x26; xd8; x09]
                       ++ Py.encode Py.nl)
                    46)).
Proof. vm_compute. reflexivity. Qed.

(** Three bytes asked for, nine written. *)
Example demo_metadata_run :
  generate_metadata_blocks 3 demo_world
  = Ok 9 (World [5; 7; 2; 9; 4; 4; 1; 0; 2; 1000; 1; 2; 3; 4; 5; 6; 7; 8]
             (File (header ++ Py.encode "META:" ++ [x03; x08; x01] ++ Py.encode Py.nl)
                   34)).
Proof. vm_compute. reflexivity. Qed.

(** A whole run with target 200 and counts 2, 2 and 1: the three phases
    write 105 bytes, 95 remain, the padding phase writes 101. *)
Example demo_run_total :
  match run_with 200 2 2 1 demo_tape [] with
  | Ok r _ => Some (exit_code r, total r, List.length (database r))
  | Raise _ => None
  end = Some (0, 206, 231%nat).
Proof. vm_compute. reflexivity. Qed.

(** A run whose three phases already pass the target: no padding. *)
Example demo_run_overshoot :
  match run_with 20 2 2 1 demo_tape [] with
  | Ok r _ => Some (exit_code r, total r, List.length (database r))
  | Raise _ => None
  end = Some (0, 105, 130%nat).
Proof. vm_compute. reflexivity. Qed.

(** ** Writing at the end of the file *)

Lemma file_write_at_end (b : list byte) (f : file) :
  f_pos f = List.length (f_data f) ->
  file_write b f = File (f_data f ++ b) (List.length (f_data f ++ b)).
Proof.
  intros E. unfold file_write. rewrite E.
  rewrite firstn_all, skipn_all2 by lia.
  rewrite app_nil_r, length_app. reflexivity.
Qed.

(** ** A program logic for what a computation appends to the file *)

Section Logic.

Context {G : Type} `{RS : RandomSource G}.

(** The next write goes to the end of the file. *)
Definition at_end (w : @world G) : Prop :=
  f_pos (out w) = List.length (f_data (out w)).

(** [writes m P]: from any world whose file is positioned at its end, [m]
    returns normally, the file has grown by some bytes [bs] and is again
    positioned at its end, and [P] relates the value returned to [bs]. *)
Definition writes {A} (m : M A) (P : A -> list byte -> Prop) : Prop :=
  forall w, at_end w ->
    exists a bs w',
      m w = Ok a w' /\ f_data (out w') = f_data (out w) ++ bs /\ at_end w' /\ P a bs.

(** [draws m R]: [m] returns a value satisfying [R] and leaves the file
    alone. *)
Definition draws {A} (m : M A) (R : A -> Prop) : Prop :=
  writes m (fun a bs => bs = [] /\ R a).

Lemma writes_ret {A} (a : A) (P : A -> list byte -> Prop) :
  P a [] -> writes (ret a) P.
Proof.
  intros HP w Hw. exists a, [], w. rewrite app_nil_r. auto.
Qed.

Lemma writes_bind {A B} (m : M A) (k : A -> M B) P Q :
  writes m P ->
  (forall a bs1, P a bs1 -> writes (k a) (fun b bs2 => Q b (bs1 ++ bs2))) ->
  writes (bind m k) Q.
Proof.
  intros Hm Hk w Hw.
  destruct (Hm w Hw) as (a & bs1 & w1 & E1 & D1 & W1 & P1).
  destruct (Hk a bs1 P1 w1 W1) as (b & bs2 & w2 & E2 & D2 & W2 & Q2).
  exists b, (bs1 ++ bs2), w2. unfold bind. rewrite E1.
  repeat split; auto. rewrite D2, D1. now rewrite app_assoc.
Qed.

Lemma draws_bind {A B} (m : M A) (k : A -> M B) R Q :
  draws m R -> (forall a, R a -> writes (k a) Q) -> writes (bind m k) Q.
Proof.
  intros Hm Hk. apply writes_bind with (P := fun a bs => bs = [] /\ R a).
  - exact Hm.
  - intros a bs1 [-> Ra]. simpl. now apply Hk.
Qed.

Lemma writes_weaken {A} (m : M A) (P Q : A -> list byte -> Prop) :
  writes m P -> (forall a bs, P a bs -> Q a bs) -> writes m Q.
Proof.
  intros Hm HPQ w Hw.
  destruct (Hm w Hw) as (a & bs & w' & E & D & W & HP).
  exists a, bs, w'. auto.
Qed.

Lemma writes_f_write (b : list byte) :
  writes (f_write b) (fun _ bs => bs = b).
Proof.
  intros w Hw. unfold f_write. rewrite (file_write_at_end b (out w) Hw).
  eexists tt, b, _. split; [reflexivity|]. unfold at_end. simpl. auto.
Qed.

Lemma draws_with_rng {A} (op : G -> A * G) (R : A -> Prop) :
  (forall g, R (fst (op g))) -> draws (with_rng op) R.
Proof.
  intros HR w Hw. unfold with_rng. specialize (HR (rng w)).
  destruct (op (rng w)) as [a g]. exists a, [], (World g (out w)).
  simpl in *. rewrite app_nil_r. auto.
Qed.

Lemma draws_choice {A} (seq : list A) :
  seq <> [] -> draws (random_choice seq) (fun x => In x seq).
Proof.
  intros Hne. destruct seq as [|x0 seq']; [congruence|].
  unfold random_choice. set (l := x0 :: seq').
  apply draws_bind with (R := fun i => 0 <= i < Z.of_nat (List.length l)).
  - apply draws_with_rng. intros g. apply randbelow_range. subst l. simpl. lia.
  - intros i Hi. destruct (nth_error l (Z.to_nat i)) as [x|] eqn:E.
    + apply writes_ret. split; [reflexivity|]. eapply nth_error_In; eauto.
    + apply nth_error_None in E. lia.
Qed.

Lemma draws_randint (a b : Z) :
  a <= b -> draws (random_randint a b) (fun r => a <= r <= b).
Proof.
  intros Hab. unfold random_randint.
  destruct (b <? a) eqn:E; [apply Z.ltb_lt in E; lia|].
  apply draws_bind with (R := fun r => 0 <= r < b - a + 1).
  - apply draws_with_rng. intros g. apply randbelow_range. lia.
  - intros r Hr. apply writes_ret. split; [reflexivity|lia].
Qed.

Lemma draws_random : draws random_random (fun k => 0 <= k < 2 ^ 53).
Proof. apply draws_with_rng. intros g. apply random53_range. Qed.

Lemma draws_urandom (n : Z) :
  0 <= n -> draws (os_urandom n) (fun d => len d = n).
Proof.
  intros Hn. unfold os_urandom.
  destruct (n <? 0) eqn:E; [apply Z.ltb_lt in E; lia|].
  apply draws_with_rng. intros g. unfold len. rewrite urandom_length. lia.
Qed.

Lemma draws_collect {A} (n : nat) (e : M A) (R : A -> Prop) :
  draws e R ->
  draws (collect n e) (fun xs => List.length xs = n /\ Forall R xs).
Proof.
  intros He. induction n as [|n IH]; simpl.
  - apply writes_ret. auto.
  - apply draws_bind with (R := R); [exact He|]. intros x Hx.
    eapply draws_bind; [exact IH|]. intros xs [Hl Hf].
    apply writes_ret. simpl. auto.
Qed.

(** A counted loop whose body appends one record and adds the record's
    length to the counter appends [count] records and returns the number
    of bytes appended. *)
Lemma writes_for_range (count : Z) (body : Z -> M Z) (P : list byte -> Prop) :
  (forall s, writes (body s) (fun s' rec => s' = s + len rec /\ P rec)) ->
  writes (for_range count body 0)
    (fun n bs => exists recs,
         bs = List.concat recs /\ Z.of_nat (List.length recs) = Z.max 0 count /\
         Forall P recs /\ n = len bs).
Proof.
  intros Hbody. unfold for_range.
  assert (Hc : Z.max 0 count = Z.of_N (Z.to_N count)) by lia.
  rewrite Hc. generalize (Z.to_N count) as k. clear Hc.
  induction k as [|k IH] using N.peano_ind.
  - simpl. apply writes_ret. exists []. simpl. auto.
  - rewrite N.iter_succ.
    eapply writes_bind; [exact IH|].
    intros n bs1 (recs & -> & Hlen & Hall & ->).
    eapply writes_weaken; [apply Hbody|].
    intros s' rec [-> HP]. exists (recs ++ [rec]).
    rewrite concat_app, length_app, Forall_app. simpl.
    rewrite app_nil_r. repeat split; auto.
    + lia.
    + unfold len. rewrite length_app. lia.
Qed.

End Logic.

(** ** Strings of digits *)

Lemma str_digit (d : Z) :
  0 <= d <= 9 ->
  exists c, Py.str d = String c EmptyString /\ is_digit c = true.
Proof.
  intros Hd.
  assert (Hcases : d = 0 \/ d = 1 \/ d = 2 \/ d = 3 \/ d = 4 \/
                   d = 5 \/ d = 6 \/ d = 7 \/ d = 8 \/ d = 9) by lia.
  repeat (destruct Hcases as [-> | Hcases]); [ .. | subst d ];
    eexists; split; reflexivity.
Qed.

Lemma str_mul_char (c : ascii) (n : Z) :
  list_ascii_of_string (Py.str_mul (String c EmptyString) n) = repeat c (Z.to_nat n).
Proof.
  unfold Py.str_mul. rewrite <- Z_N_nat. generalize (Z.to_N n) as k.
  induction k as [|k IH] using N.peano_ind; [reflexivity|].
  rewrite N.iter_succ, N2Nat.inj_succ. cbn [repeat]. rewrite <- IH. reflexivity.
Qed.

Lemma string_length_ascii (s : string) :
  String.length s = List.length (list_ascii_of_string s).
Proof. induction s as [|c s IH]; simpl; congruence. Qed.

Lemma forallb_repeat {A} (p : A -> bool) (x : A) (n : nat) :
  p x = true -> forallb p (repeat x n) = true.
Proof. intros Hx. induction n as [|n IH]; simpl; [reflexivity|]. now rewrite Hx. Qed.

Lemma repeated_digit_shape (d n : Z) :
  0 <= d <= 9 -> 6 <= n <= 12 ->
  let s := Py.str_mul (Py.str d) n in
  Z.of_nat (String.length s) = n /\ one_digit_repeated s = true.
Proof.
  intros Hd Hn s. destruct (str_digit d Hd) as (c & Ec & Hc).
  subst s. rewrite Ec. split.
  - rewrite string_length_ascii, str_mul_char, repeat_length. lia.
  - pose proof (str_mul_char c n) as E.
    destruct (Z.to_nat n) as [|k] eqn:Ek; [lia|].
    destruct (Py.str_mul (String c EmptyString) n) as [|c' rest]; simpl in E;
      [discriminate|].
    injection E as -> E. simpl. rewrite Hc, E. simpl.
    apply forallb_repeat. apply Ascii.eqb_refl.
Qed.

Lemma joined_digits_shape (ds : list string) :
  Forall (fun s => exists c, s = String c EmptyString /\ is_digit c = true) ds ->
  String.length (Py.join ds) = List.length ds /\ all_digits (Py.join ds) = true.
Proof.
  induction 1 as [|s ds (c & -> & Hc) _ [IHl IHd]]; simpl; [auto|].
  split; [now rewrite IHl|]. unfold all_digits in *. simpl. now rewrite Hc, IHd.
Qed.

(** The three replacements in a row substitute every character at once:
    no replacement produces a character that a later one rewrites. *)
Lemma homoglyphs_leet (base : string) : homoglyphs base = leet_string base.
Proof.
  unfold homoglyphs. induction base as [|c s IH]; simpl; [reflexivity|].
  rewrite IH. f_equal. unfold leet.
  destruct (Ascii.eqb c "o") eqn:Eo; [reflexivity|].
  destruct (Ascii.eqb c "l") eqn:El; reflexivity.
Qed.

Lemma digest_length (msg : list byte) : List.length (Sha256.digest msg) = 32%nat.
Proof.
  unfold Sha256.digest, Sha256.output. repeat rewrite length_app. reflexivity.
Qed.

Lemma phrase_hash_length (s : string) : List.length (phrase_hash s) = 16%nat.
Proof.
  unfold phrase_hash. rewrite length_firstn, digest_length. reflexivity.
Qed.

(** ** What one turn of each loop appends *)

Section Bodies.

Context {G : Type} `{RS : RandomSource G}.

Lemma phone_body_writes (written : Z) :
  writes (phone_body written)
    (fun written' rec => written' = written + len rec /\ phone_line rec).
Proof.
  unfold phone_body.
  eapply draws_bind; [apply draws_choice; discriminate|]. intros prefix Hprefix.
  eapply draws_bind; [apply draws_randint; lia|]. intros suffix_len Hlen. cbv beta in Hlen.
  eapply draws_bind; [apply draws_random|]. intros r _.
  apply writes_bind with
    (P := fun suffix bs => bs = [] /\
            Z.of_nat (String.length suffix) = suffix_len /\
            (one_digit_repeated suffix = true \/ all_digits suffix = true)).
  - destruct (float_lt r float_0_3).
    + eapply draws_bind; [apply draws_randint; lia|]. intros d Hd. cbv beta in Hd.
      apply writes_ret. split; [reflexivity|].
      destruct (repeated_digit_shape d suffix_len Hd Hlen) as [Hl Hr]. auto.
    + eapply draws_bind.
      * apply draws_collect with
          (R := fun s => exists c, s = String c EmptyString /\ is_digit c = true).
        eapply draws_bind; [apply draws_randint; lia|]. intros d Hd. cbv beta in Hd.
        apply writes_ret. split; [reflexivity|]. now apply str_digit.
      * intros ds [Hl Hf]. apply writes_ret. split; [reflexivity|].
        destruct (joined_digits_shape ds Hf) as [Hjl Hjd].
        rewrite Hjl, Hl. split; [lia|auto].
  - intros suffix bs1 (-> & Hsl & Hshape). simpl.
    eapply writes_bind; [apply writes_f_write|]. intros _ bs ->.
    apply writes_ret. rewrite app_nil_r. split; [reflexivity|].
    exists prefix, suffix. repeat split; auto; lia.
Qed.

Lemma domain_body_writes (written : Z) :
  writes (domain_body written)
    (fun written' rec => written' = written + len rec /\ domain_line rec).
Proof.
  unfold domain_body.
  eapply draws_bind; [apply draws_choice; discriminate|]. intros base Hbase.
  eapply draws_bind; [apply draws_random|]. intros r _.
  eapply draws_bind; [apply draws_choice; discriminate|]. intros tld Htld.
  eapply draws_bind; [apply draws_choice; discriminate|]. intros sub Hsub.
  eapply draws_bind; [apply draws_randint; lia|]. intros n Hn. cbv beta in Hn.
  eapply writes_bind; [apply writes_f_write|]. intros _ bs ->.
  apply writes_ret. rewrite app_nil_r. split; [reflexivity|].
  exists sub, (if float_lt r float_0_2 then homoglyphs base else base), tld, n.
  repeat split; auto; try lia.
  destruct (float_lt r float_0_2); [right|left; exact Hbase].
  exists base. split; [exact Hbase|apply homoglyphs_leet].
Qed.

Lemma sig_body_writes (written : Z) :
  writes (sig_body written)
    (fun written' rec => written' = written + len rec /\ sig_record rec).
Proof.
  unfold sig_body.
  eapply draws_bind; [apply draws_choice; discriminate|]. intros p Hp.
  eapply draws_bind; [apply draws_randint; lia|]. intros n Hn. cbv beta in Hn.
  eapply writes_bind; [apply writes_f_write|]. intros _ bs ->.
  apply writes_ret. rewrite app_nil_r. split; [reflexivity|].
  exists p, n. repeat split; auto; lia.
Qed.

Lemma sig_record_length (rec : list byte) :
  sig_record rec -> List.length rec = 21%nat.
Proof.
  intros (p & n & _ & _ & ->). fold (phrase_hash (p ++ "_" ++ Py.str n)).
  rewrite !length_app, phrase_hash_length. reflexivity.
Qed.

End Bodies.

(** ** The padding loop *)

Section Padding.

Context {G : Type} `{RS : RandomSource G}.

Lemma meta_body_runs (remaining written : Z) (w : world) :
  written < remaining ->
  exists w',
    meta_body remaining written w
    = Ok (written + (Z.min 4090 (remaining - written) + 6)) w'.
Proof.
  intros Hlt. unfold meta_body, bind, os_urandom, block_size.
  change (4096 - 6) with 4090.
  set (n := Z.min 4090 (remaining - written)).
  assert (Hn : 0 < n) by (subst n; lia).
  destruct (n <? 0) eqn:E; [apply Z.ltb_lt in E; lia|].
  unfold with_rng. pose proof (urandom_length (Z.to_nat n) (rng w)) as Hl.
  destruct (urandom (Z.to_nat n) (rng w)) as [data g']. simpl in Hl.
  unfold f_write, ret. eexists. f_equal. unfold len. rewrite length_app, Hl.
  change (List.length (Py.encode "META:")) with 5%nat. lia.
Qed.

Lemma meta_body_writes (remaining written : Z) :
  written < remaining ->
  writes (meta_body remaining written)
    (fun written' rec =>
       written' = written + len rec /\ meta_block rec /\
       len rec = Z.min 4090 (remaining - written) + 6).
Proof.
  intros Hlt. unfold meta_body, block_size. change (4096 - 6) with 4090.
  set (n := Z.min 4090 (remaining - written)).
  assert (Hn : 1 <= n <= 4090) by (subst n; lia).
  eapply draws_bind; [apply draws_urandom; lia|]. intros data Hd.
  unfold len in Hd.
  eapply writes_bind; [apply writes_f_write|]. intros _ bs ->.
  apply writes_ret. rewrite app_nil_r.
  assert (Hrec : len ((Py.encode "META:" ++ data) ++ Py.encode Py.nl) = n + 6).
  { unfold len. rewrite !length_app.
    change (List.length (Py.encode "META:")) with 5%nat.
    change (List.length (Py.encode Py.nl)) with 1%nat. lia. }
  repeat split.
  - rewrite Hrec. unfold len at 1. rewrite length_app.
    change (List.length (Py.encode "META:")) with 5%nat. lia.
  - exists data. split; [reflexivity|lia].
  - exact Hrec.
Qed.

(** With one turn granted per 4096 bytes still to write, the loop leaves
    by its own condition, having written at least what was asked and at
    most six bytes more. *)
Lemma meta_loop_writes (fuel : nat) :
  forall remaining written,
    remaining - written <= block_size * Z.of_nat fuel ->
    writes (meta_loop fuel remaining written)
      (fun n bs => exists blocks,
           bs = List.concat blocks /\ Forall meta_block blocks /\
           n = written + len bs /\
           (remaining <= written -> blocks = []) /\
           (written < remaining -> remaining <= n <= remaining + 6)).
Proof.
  unfold block_size.
  induction fuel as [|fuel IH]; intros remaining written Hfuel; simpl.
  - destruct (written <? remaining) eqn:E; [apply Z.ltb_lt in E; lia|].
    apply Z.ltb_ge in E. apply writes_ret. exists []. simpl.
    unfold len. simpl. repeat split; auto; lia.
  - destruct (written <? remaining) eqn:E.
    + apply Z.ltb_lt in E.
      eapply writes_bind; [apply meta_body_writes; exact E|].
      intros written' rec (-> & Hblock & Hrec).
      eapply writes_weaken; [apply IH; lia|].
      intros n bs (blocks & -> & Hall & -> & Hnone & Hsome).
      exists (rec :: blocks). simpl. repeat split; auto.
      * unfold len. rewrite length_app. lia.
      * intros Hle. lia.
      * destruct (Z.lt_ge_cases (written + len rec) remaining) as [Hlt|Hge];
          [lia|]. rewrite (Hnone Hge). unfold len at 2. simpl. lia.
      * destruct (Z.lt_ge_cases (written + len rec) remaining) as [Hlt|Hge];
          [lia|]. rewrite (Hnone Hge). unfold len at 2. simpl. lia.
    + apply Z.ltb_ge in E. apply writes_ret. exists []. simpl.
      unfold len. simpl. repeat split; auto; lia.
Qed.

Lemma meta_fuel_enough (remaining : Z) :
  remaining - 0 <= block_size * Z.of_nat (meta_fuel remaining).
Proof.
  unfold meta_fuel, block_size.
  destruct (Z.lt_ge_cases remaining 0) as [Hneg|Hpos].
  - lia.
  - pose proof (Z.div_mod remaining 4096 ltac:(lia)) as Hdm.
    pose proof (Z.mod_pos_bound remaining 4096 ltac:(lia)) as Hmod.
    assert (0 <= remaining / 4096) by (apply Z.div_pos; lia).
    rewrite Z2Nat.id by lia. lia.
Qed.

Lemma generate_metadata_blocks_writes (remaining : Z) :
  writes (generate_metadata_blocks remaining)
    (fun n bs => exists blocks,
         bs = List.concat blocks /\ Forall meta_block blocks /\
         n = len bs /\
         (remaining <= 0 -> blocks = []) /\
         (0 < remaining -> remaining <= n <= remaining + 6)).
Proof.
  unfold generate_metadata_blocks.
  eapply writes_weaken; [apply meta_loop_writes, meta_fuel_enough|].
  intros n bs (blocks & -> & Hall & -> & Hnone & Hsome).
  exists blocks. repeat split; auto; lia.
Qed.

(** The loop's result does not depend on the bound, once the bound is
    large enough for the loop to leave by its condition. *)
Lemma meta_loop_more_fuel (f1 : nat) :
  forall (f2 : nat) remaining written (w : world) n w',
    meta_loop f1 remaining written w = Ok n w' ->
    (f1 <= f2)%nat ->
    meta_loop f2 remaining written w = Ok n w'.
Proof.
  induction f1 as [|f1 IH]; intros f2 remaining written w n w' Hrun Hle.
  - simpl in Hrun. destruct f2 as [|f2]; simpl;
      destruct (written <? remaining); try exact Hrun; discriminate.
  - destruct f2 as [|f2]; [lia|]. simpl in *.
    destruct (written <? remaining); [|exact Hrun].
    unfold bind in *. destruct (meta_body remaining written w) as [x w1|e];
      [|discriminate].
    apply IH; [exact Hrun|lia].
Qed.

Lemma meta_loop_terminates (fuel : nat) :
  forall remaining written (w : world),
    remaining - written <= block_size * Z.of_nat fuel ->
    exists n w', meta_loop fuel remaining written w = Ok n w'.
Proof.
  unfold block_size.
  induction fuel as [|fuel IH]; intros remaining written w Hfuel; simpl.
  - destruct (written <? remaining) eqn:E; [apply Z.ltb_lt in E; lia|].
    unfold ret. eauto.
  - destruct (written <? remaining) eqn:E; [|unfold ret; eauto].
    apply Z.ltb_lt in E.
    destruct (meta_body_runs remaining written w E) as (w1 & E1).
    unfold bind. rewrite E1. apply IH. lia.
Qed.

Lemma padded_size_step (d : Z) :
  0 < d ->
  Z.min 4090 d + 6 + padded_size (d - (Z.min 4090 d + 6)) = padded_size d.
Proof.
  intros Hd. unfold padded_size.
  destruct (Z.le_gt_cases d 4090) as [Hsmall|Hbig].
  - rewrite Z.min_r by lia.
    replace (d - (d + 6) <=? 0) with true by (symmetry; apply Z.leb_le; lia).
    replace (d <=? 0) with false by (symmetry; apply Z.leb_gt; lia).
    rewrite (Z.mod_small d 4096) by lia.
    replace (d =? 0) with false by (symmetry; apply Z.eqb_neq; lia).
    replace (d <=? 4090) with true by (symmetry; apply Z.leb_le; lia). lia.
  - rewrite Z.min_l by lia.
    replace (d <=? 0) with false by (symmetry; apply Z.leb_gt; lia).
    replace (d - (4090 + 6)) with (d - 4096) by lia.
    assert (Hmod : (d - 4096) mod 4096 = d mod 4096).
    { replace (d - 4096) with (d + (-1) * 4096) by lia. apply Z.mod_add. lia. }
    rewrite Hmod.
    pose proof (Z.mod_pos_bound d 4096 ltac:(lia)) as Hm.
    pose proof (Z.div_mod d 4096 ltac:(lia)) as Hdm.
    destruct (d - 4096 <=? 0) eqn:E.
    + apply Z.leb_le in E.
      assert (Hq : d / 4096 = 0 \/ d / 4096 = 1) by nia.
      destruct (d mod 4096 =? 0) eqn:E0.
      * apply Z.eqb_eq in E0. lia.
      * apply Z.eqb_neq in E0.
        replace (d mod 4096 <=? 4090) with false
          by (symmetry; apply Z.leb_gt; lia). lia.
    + destruct (d mod 4096 =? 0); [lia|].
      destruct (d mod 4096 <=? 4090); lia.
Qed.

Lemma meta_loop_total (fuel : nat) :
  forall remaining written (w : world),
    remaining - written <= block_size * Z.of_nat fuel ->
    exists w',
      meta_loop fuel remaining written w
      = Ok (written + padded_size (remaining - written)) w'.
Proof.
  unfold block_size.
  induction fuel as [|fuel IH]; intros remaining written w Hfuel; simpl.
  - destruct (written <? remaining) eqn:E; [apply Z.ltb_lt in E; lia|].
    apply Z.ltb_ge in E. exists w. unfold ret, padded_size.
    replace (remaining - written <=? 0) with true
      by (symmetry; apply Z.leb_le; lia).
    now rewrite Z.add_0_r.
  - destruct (written <? remaining) eqn:E.
    + apply Z.ltb_lt in E.
      destruct (meta_body_runs remaining written w E) as (w1 & E1).
      unfold bind. rewrite E1.
      destruct (IH remaining (written + (Z.min 4090 (remaining - written) + 6)) w1)
        as (w2 & E2); [lia|].
      exists w2. rewrite E2. f_equal.
      rewrite <- (padded_size_step (remaining - written)) by lia.
      replace (remaining - (written + (Z.min 4090 (remaining - written) + 6)))
        with (remaining - written - (Z.min 4090 (remaining - written) + 6)) by lia.
      lia.
    + apply Z.ltb_ge in E. exists w. unfold ret, padded_size.
      replace (remaining - written <=? 0) with true
        by (symmetry; apply Z.leb_le; lia).
      now rewrite Z.add_0_r.
Qed.

End Padding.

(** ** The generators *)

Section Generators.

Context {G : Type} `{RS : RandomSource G}.

Lemma generate_phone_patterns_writes (count : Z) :
  writes (generate_phone_patterns count)
    (fun n bs => exists recs,
         bs = List.concat recs /\ Z.of_nat (List.length recs) = Z.max 0 count /\
         Forall phone_line recs /\ n = len bs).
Proof. apply writes_for_range, phone_body_writes. Qed.

Lemma generate_domain_patterns_writes (count : Z) :
  writes (generate_domain_patterns count)
    (fun n bs => exists recs,
         bs = List.concat recs /\ Z.of_nat (List.length recs) = Z.max 0 count /\
         Forall domain_line recs /\ n = len bs).
Proof. apply writes_for_range, domain_body_writes. Qed.

Lemma generate_phrase_signatures_writes (count : Z) :
  writes (generate_phrase_signatures count)
    (fun n bs => exists recs,
         bs = List.concat recs /\ Z.of_nat (List.length recs) = Z.max 0 count /\
         Forall sig_record recs /\ n = len bs).
Proof. apply writes_for_range, sig_body_writes. Qed.

Lemma make_header_ret : @make_header G = ret header.
Proof. reflexivity. Qed.

Lemma header_written (old : list byte) :
  file_write header (open_wb old) = File header 25.
Proof. reflexivity. Qed.

(** A run, phase by phase: the worlds between the phases, what each phase
    returns, and the file each leaves. *)
Lemma run_with_phases (target phone_count domain_count sig_count : Z)
    (g : G) (old : list byte) :
  exists n1 w1 n2 w2 n3 w3 n4 r w phones domains sigs metas,
    generate_phone_patterns phone_count (World g (File header 25)) = Ok n1 w1 /\
    generate_domain_patterns domain_count w1 = Ok n2 w2 /\
    generate_phrase_signatures sig_count w2 = Ok n3 w3 /\
    (if 0 <? target - (n1 + n2 + n3)
     then generate_metadata_blocks (target - (n1 + n2 + n3)) w3 = Ok n4 w
     else n4 = 0 /\ w = w3) /\
    run_with target phone_count domain_count sig_count g old = Ok r w /\
    r = Run 0 (n1 + n2 + n3 + n4) (f_data (out w)) /\
    f_data (out w1) = header ++ List.concat phones /\
    f_data (out w2) = f_data (out w1) ++ List.concat domains /\
    f_data (out w3) = f_data (out w2) ++ List.concat sigs /\
    f_data (out w) = f_data (out w3) ++ List.concat metas /\
    (n1 = len (List.concat phones) /\ n2 = len (List.concat domains) /\
     n3 = len (List.concat sigs) /\ n4 = len (List.concat metas)) /\
    (Z.of_nat (List.length phones) = Z.max 0 phone_count /\ Forall phone_line phones) /\
    (Z.of_nat (List.length domains) = Z.max 0 domain_count /\ Forall domain_line domains) /\
    (Z.of_nat (List.length sigs) = Z.max 0 sig_count /\ Forall sig_record sigs) /\
    Forall meta_block metas /\
    (target - (n1 + n2 + n3) <= 0 -> metas = []) /\
    (0 < target - (n1 + n2 + n3) ->
     target - (n1 + n2 + n3) <= n4 <= target - (n1 + n2 + n3) + 6).
Proof.
  assert (H0 : at_end (World g (File header 25))) by reflexivity.
  destruct (generate_phone_patterns_writes phone_count _ H0)
    as (n1 & bs1 & w1 & E1 & D1 & W1 & phones & -> & L1 & F1 & N1).
  destruct (generate_domain_patterns_writes domain_count _ W1)
    as (n2 & bs2 & w2 & E2 & D2 & W2 & domains & -> & L2 & F2 & N2).
  destruct (generate_phrase_signatures_writes sig_count _ W2)
    as (n3 & bs3 & w3 & E3 & D3 & W3 & sigs & -> & L3 & F3 & N3).
  simpl in D1.
  assert (Erun : forall k : Z -> M Z,
             bind make_header (fun hdr => bind (f_write hdr) (fun _ =>
               bind (generate_phone_patterns phone_count) (fun a =>
               bind (generate_domain_patterns domain_count) (fun b =>
               bind (generate_phrase_signatures sig_count) (fun c =>
                 k (0 + a + b + c))))))
               (World g (open_wb old))
             = k (n1 + n2 + n3) w3).
  { intros k. rewrite make_header_ret. unfold bind at 1 2. unfold ret, f_write.
    cbn [rng out]. rewrite (header_written old).
    unfold bind at 1. rewrite E1. unfold bind at 1. rewrite E2.
    unfold bind at 1. rewrite E3. reflexivity. }
  destruct (0 <? target - (n1 + n2 + n3)) eqn:Epos.
  - assert (Hpos : 0 < target - (n1 + n2 + n3)) by now apply Z.ltb_lt.
    destruct (generate_metadata_blocks_writes (target - (n1 + n2 + n3)) _ W3)
      as (n4 & bs4 & w4 & E4 & D4 & W4 & metas & -> & F4 & N4 & Hnone & Hsome).
    exists n1, w1, n2, w2, n3, w3, n4, (Run 0 (n1 + n2 + n3 + n4) (f_data (out w4))),
      w4, phones, domains, sigs, metas.
    unfold run_with, write_database. cbv zeta.
    rewrite (Erun (fun t => if 0 <? target - t
                            then bind (generate_metadata_blocks (target - t))
                                   (fun n => ret (t + n))
                            else ret t)).
    rewrite Epos. unfold bind. rewrite E4. unfold ret.
    repeat match goal with |- _ /\ _ => split end; auto; lia.
  - assert (Hneg : target - (n1 + n2 + n3) <= 0) by now apply Z.ltb_ge.
    exists n1, w1, n2, w2, n3, w3, 0, (Run 0 (n1 + n2 + n3 + 0) (f_data (out w3))),
      w3, phones, domains, sigs, [].
    unfold run_with, write_database. cbv zeta.
    rewrite (Erun (fun t => if 0 <? target - t
                            then bind (generate_metadata_blocks (target - t))
                                   (fun n => ret (t + n))
                            else ret t)).
    rewrite Epos. unfold ret. rewrite Z.add_0_r. simpl List.concat.
    rewrite app_nil_r.
    repeat match goal with |- _ /\ _ => split end; auto; lia.
Qed.

End Generators.

(** ** The header *)

Lemma Z_of_byte_of_Z (z : Z) : Py.Z_of_byte (Py.byte_of_Z z) = z mod 256.
Proof.
  unfold Py.Z_of_byte, Py.byte_of_Z.
  pose proof (Z.mod_pos_bound z 256 ltac:(lia)) as Hb.
  destruct (Byte.of_N (Z.to_N (z mod 256))) as [b|] eqn:E.
  - apply Byte.to_of_N in E. rewrite E. lia.
  - apply Byte.of_N_None_iff in E. lia.
Qed.

(** [struct.pack("<Q", n)] is little-endian: reading the eight bytes back,
    least significant first, gives [n]. *)
Lemma struct_pack_le_Q_unpack (n : Z) (bs : list byte) :
  Py.struct_pack_le_Q n = Some bs ->
  List.length bs = 8%nat /\ Py.unpack_le bs = n.
Proof.
  unfold Py.struct_pack_le_Q.
  destruct ((0 <=? n) && (n <? 2 ^ 64)) eqn:E; [|discriminate].
  apply andb_true_iff in E. destruct E as [Hlo Hhi].
  apply Z.leb_le in Hlo. apply Z.ltb_lt in Hhi.
  intros [= <-]. split; [reflexivity|].
  cbn [map Py.unpack_le]. rewrite !Z_of_byte_of_Z, !Z.shiftr_div_pow2 by lia.
  change (2 ^ 8) with 256. change (2 ^ 16) with 65536.
  change (2 ^ 24) with 16777216. change (2 ^ 32) with 4294967296.
  change (2 ^ 40) with 1099511627776. change (2 ^ 48) with 281474976710656.
  change (2 ^ 56) with 72057594037927936.
  change (2 ^ 64) with 18446744073709551616 in Hhi.
  Z.div_mod_to_equations. lia.
Qed.

Lemma header_zero_field (i : nat) :
  (17 <= i < 25)%nat -> nth_error header i = Some x00.
Proof.
  intros Hi.
  assert (Hcases : (i = 17 \/ i = 18 \/ i = 19 \/ i = 20 \/
                    i = 21 \/ i = 22 \/ i = 23 \/ i = 24)%nat) by lia.
  repeat (destruct Hcases as [-> | Hcases]); [ .. | subst i ]; reflexivity.
Qed.

Lemma nth_error_extend {A} (l ext : list A) (i : nat) (x : A) :
  nth_error l i = Some x -> nth_error (l ++ ext) i = Some x.
Proof.
  intros E. rewrite nth_error_app1; [exact E|].
  apply nth_error_Some. congruence.
Qed.

(** ** The properties of the specification *)

Section Claims.

Context {G : Type} `{RS : RandomSource G}.

(** C4.  [generate_phone_patterns] appends [count] lines to the file, each
    of the form "PHONE:" + prefix + suffix + newline with the prefix taken
    from [COUNTRY_PREFIXES], a suffix of 6 to 12 characters that is either
    one digit repeated or a string of digits, and returns the number of
    bytes it appended. *)
Theorem generate_phone_patterns_lines (count : Z) (w : world) :
  at_end w ->
  exists (n : Z) (w' : world) (recs : list (list byte)),
    generate_phone_patterns count w = Ok n w' /\
    f_data (out w') = f_data (out w) ++ List.concat recs /\
    Z.of_nat (List.length recs) = Z.max 0 count /\
    Forall phone_line recs /\
    n = len (List.concat recs).
Proof.
  intros Hw.
  destruct (generate_phone_patterns_writes count w Hw)
    as (n & bs & w' & E & D & _ & recs & -> & Hl & Hf & Hn).
  exists n, w', recs. auto.
Qed.

(** C5.  [generate_domain_patterns] appends [count] lines to the file, each
    of the form "DOMAIN:" + sub + base + n + tld + newline, where tld is
    one of [tlds], base is an element of [DOMAIN_PATTERNS], possibly with
    every o, l and a replaced by 0, 1 and 4, sub is one of the six
    subdomain tokens (the empty one included), and n is the decimal
    writing of an integer between 1 and 999. *)
Theorem generate_domain_patterns_lines (count : Z) (w : world) :
  at_end w ->
  exists (n : Z) (w' : world) (recs : list (list byte)),
    generate_domain_patterns count w = Ok n w' /\
    f_data (out w') = f_data (out w) ++ List.concat recs /\
    Z.of_nat (List.length recs) = Z.max 0 count /\
    Forall domain_line recs /\
    n = len (List.concat recs).
Proof.
  intros Hw.
  destruct (generate_domain_patterns_writes count w Hw)
    as (n & bs & w' & E & D & _ & recs & -> & Hl & Hf & Hn).
  exists n, w', recs. auto.
Qed.

(** C6.  [generate_phrase_signatures] appends [count] records of exactly 21
    bytes: the tag "SIG:", the first 16 bytes of the SHA-256 digest of a
    phrase of [phrases] followed by an underscore and an integer between
    1000 and 99999, and a newline byte. *)
Theorem generate_phrase_signatures_records (count : Z) (w : world) :
  at_end w ->
  exists (n : Z) (w' : world) (recs : list (list byte)),
    generate_phrase_signatures count w = Ok n w' /\
    f_data (out w') = f_data (out w) ++ List.concat recs /\
    Z.of_nat (List.length recs) = Z.max 0 count /\
    Forall (fun rec => sig_record rec /\ List.length rec = 21%nat) recs /\
    n = len (List.concat recs).
Proof.
  intros Hw.
  destruct (generate_phrase_signatures_writes count w Hw)
    as (n & bs & w' & E & D & _ & recs & -> & Hl & Hf & Hn).
  exists n, w', recs. repeat split; auto.
  eapply Forall_impl; [|exact Hf]. intros rec Hrec.
  split; [exact Hrec|now apply sig_record_length].
Qed.

(** C9.  For [remaining > 0], [generate_metadata_blocks] returns at most
    [remaining + 6]: the value is [padded_size remaining], which is
    [remaining + 6] whenever the last block is a truncated one; and every
    block it appends, tag and newline included, has at most 4096 bytes. *)
Theorem generate_metadata_blocks_overshoot (remaining : Z) (w : world) :
  at_end w ->
  0 < remaining ->
  exists (n : Z) (w' : world) (blocks : list (list byte)),
    generate_metadata_blocks remaining w = Ok n w' /\
    f_data (out w') = f_data (out w) ++ List.concat blocks /\
    n = len (List.concat blocks) /\
    remaining <= n <= remaining + 6 /\
    n = padded_size remaining /\
    (1 <= remaining mod 4096 <= 4090 -> n = remaining + 6) /\
    Forall (fun b => meta_block b /\ len b <= 4096) blocks.
Proof.
  intros Hw Hpos.
  destruct (generate_metadata_blocks_writes remaining w Hw)
    as (n & bs & w' & E & D & _ & blocks & -> & Hf & Hn & _ & Hsome).
  destruct (meta_loop_total (meta_fuel remaining) remaining 0 w
              (meta_fuel_enough remaining)) as (w'' & E').
  unfold generate_metadata_blocks in E. rewrite E in E'.
  injection E' as E' _. replace (remaining - 0) with remaining in E' by lia.
  assert (En : n = padded_size remaining) by lia. clear E'.
  exists n, w', blocks. repeat split; auto; try (apply Hsome; exact Hpos).
  - intros Hm. rewrite En. unfold padded_size.
    replace (remaining <=? 0) with false by (symmetry; apply Z.leb_gt; lia).
    replace (remaining mod 4096 =? 0) with false
      by (symmetry; apply Z.eqb_neq; lia).
    replace (remaining mod 4096 <=? 4090) with true
      by (symmetry; apply Z.leb_le; lia).
    reflexivity.
  - eapply Forall_impl; [|exact Hf]. intros b Hb. split; [exact Hb|].
    destruct Hb as (data & -> & Hd). unfold len. rewrite !length_app.
    change (List.length (Py.encode "META:")) with 5%nat.
    change (List.length (Py.encode Py.nl)) with 1%nat. lia.
Qed.

(** C10.  [generate_metadata_blocks] terminates for every integer
    [remaining]: it returns normally, with the same result under any
    larger bound on the number of turns; for [remaining <= 0] the body
    never runs and the result is 0 in an unchanged world; and each turn
    of the loop, taken while [written < remaining], adds at least 7 to
    [written]. *)
Theorem generate_metadata_blocks_terminates (remaining : Z) (w : world) :
  (exists (n : Z) (w' : world),
      generate_metadata_blocks remaining w = Ok n w' /\
      forall fuel : nat,
        (meta_fuel remaining <= fuel)%nat ->
        meta_loop fuel remaining 0 w = Ok n w') /\
  (remaining <= 0 -> generate_metadata_blocks remaining w = Ok 0 w) /\
  (forall (written : Z) (v : world),
      written < remaining ->
      exists (written' : Z) (v' : world),
        meta_body remaining written v = Ok written' v' /\
        written + 7 <= written').
Proof.
  split; [|split].
  - destruct (meta_loop_terminates (meta_fuel remaining) remaining 0 w
                (meta_fuel_enough remaining)) as (n & w' & E).
    exists n, w'. split; [exact E|].
    intros fuel Hfuel. eapply meta_loop_more_fuel; eauto.
  - intros Hle. unfold generate_metadata_blocks.
    destruct (meta_fuel remaining); simpl;
      (replace (0 <? remaining) with false by (symmetry; apply Z.ltb_ge; lia));
      reflexivity.
  - intros written v Hlt.
    destruct (meta_body_runs remaining written v Hlt) as (v' & E).
    eexists _, v'. split; [exact E|]. lia.
Qed.

(** C1.  At [remaining = 100] the loop runs once: the block carries 100
    random bytes between the 5-byte tag and the newline, so 106 bytes are
    written and 106 is returned, six more than asked. *)
Theorem generate_metadata_blocks_100 (w : world) :
  at_end w ->
  exists (w' : world) (data : list byte),
    generate_metadata_blocks 100 w = Ok 106 w' /\
    List.length data = 100%nat /\
    f_data (out w') = f_data (out w) ++ (Py.encode "META:" ++ data) ++ Py.encode Py.nl /\
    len (f_data (out w')) = len (f_data (out w)) + 106.
Proof.
  intros Hw. unfold generate_metadata_blocks.
  change (meta_fuel 100) with 1%nat. cbn [meta_loop].
  change (0 <? 100) with true. cbv iota.
  destruct (meta_body_writes 100 0 ltac:(lia) w Hw)
    as (n & rec & w' & E & D & _ & -> & (data & -> & Hd) & Hrec).
  change (Z.min 4090 (100 - 0) + 6) with 106 in Hrec.
  unfold bind. rewrite E. rewrite Hrec. change (0 + 106 <? 100) with false.
  cbv iota. unfold ret. exists w', data. repeat split; auto.
  - unfold len in Hrec. rewrite !length_app in Hrec.
    change (List.length (Py.encode "META:")) with 5%nat in Hrec.
    change (List.length (Py.encode Py.nl)) with 1%nat in Hrec. lia.
  - rewrite D. unfold len in *. rewrite length_app. lia.
Qed.

(** C7.  The header is 25 bytes: the 17-byte tag "DFS_THREAT_DB_V1" with a
    NUL byte, then the eight bytes that [struct.pack("<Q", 0)] gives, which
    read back little-endian as zero (as the eight bytes packed for any [n]
    read back as [n]).  It is the first thing written to the fresh file,
    so in every run of [main] the records start at offset 25. *)
Theorem header_is_25_bytes (g : G) (old : list byte) :
  List.length header = 25%nat /\
  firstn 17 header = Py.encode "DFS_THREAT_DB_V1" ++ [x00] /\
  Py.struct_pack_le_Q 0 = Some (skipn 17 header) /\
  List.length (skipn 17 header) = 8%nat /\
  Py.unpack_le (skipn 17 header) = 0 /\
  (forall (n : Z) (bs : list byte),
      Py.struct_pack_le_Q n = Some bs ->
      List.length bs = 8%nat /\ Py.unpack_le bs = n) /\
  make_header (World g (open_wb old)) = Ok header (World g (open_wb old)) /\
  bind make_header f_write (World g (open_wb old))
    = Ok tt (World g (File header 25)) /\
  exists r w records,
    main g old = Ok r w /\
    database r = header ++ records /\
    firstn 25 (database r) = header /\
    skipn 25 (database r) = records.
Proof.
  repeat match goal with |- _ /\ _ => split end; try reflexivity.
  { exact struct_pack_le_Q_unpack. }
  destruct (run_with_phases TARGET_SIZE_BYTES 2500000 2500000 6500000 g old)
    as (n1 & w1 & n2 & w2 & n3 & w3 & n4 & r & w & phones & domains & sigs & metas
        & _ & _ & _ & _ & Erun & -> & D1 & D2 & D3 & D4 & _).
  assert (D : f_data (out w)
              = header ++ (List.concat phones ++ List.concat domains
                             ++ List.concat sigs ++ List.concat metas)).
  { rewrite D4, D3, D2, D1. now rewrite <- !app_assoc. }
  eexists _, w, _. split; [exact Erun|]. cbn [database].
  split; [exact D|]. rewrite D. split.
  - change 25%nat with (List.length header + 0)%nat.
    rewrite firstn_app_2. cbn [firstn]. apply app_nil_r.
  - change 25%nat with (List.length header).
    rewrite skipn_app, Nat.sub_diag, skipn_all. reflexivity.
Qed.

(** C8.  The eight bytes at offsets 17 to 24 are zero once the header is
    written and stay zero: each phase leaves a file that extends the one
    it found, so they are zero after every phase and in the final file of
    every run of [main]. *)
Theorem reserved_field_stays_zero (g : G) (old : list byte) :
  exists n1 w1 n2 w2 n3 w3 r w,
    generate_phone_patterns 2500000 (World g (File header 25)) = Ok n1 w1 /\
    generate_domain_patterns 2500000 w1 = Ok n2 w2 /\
    generate_phrase_signatures 6500000 w2 = Ok n3 w3 /\
    main g old = Ok r w /\
    (exists bs1 bs2 bs3 bs4,
        f_data (out w1) = header ++ bs1 /\
        f_data (out w2) = f_data (out w1) ++ bs2 /\
        f_data (out w3) = f_data (out w2) ++ bs3 /\
        database r = f_data (out w3) ++ bs4) /\
    forall i : nat,
      (17 <= i < 25)%nat ->
      nth_error header i = Some x00 /\
      nth_error (f_data (out w1)) i = Some x00 /\
      nth_error (f_data (out w2)) i = Some x00 /\
      nth_error (f_data (out w3)) i = Some x00 /\
      nth_error (database r) i = Some x00.
Proof.
  destruct (run_with_phases TARGET_SIZE_BYTES 2500000 2500000 6500000 g old)
    as (n1 & w1 & n2 & w2 & n3 & w3 & n4 & r & w & phones & domains & sigs & metas
        & E1 & E2 & E3 & _ & Erun & -> & D1 & D2 & D3 & D4 & _).
  exists n1, w1, n2, w2, n3, w3, (Run 0 (n1 + n2 + n3 + n4) (f_data (out w))), w.
  cbn [database].
  split; [exact E1|]. split; [exact E2|]. split; [exact E3|].
  split; [exact Erun|]. split.
  - exists (List.concat phones), (List.concat domains), (List.concat sigs),
      (List.concat metas).
    exact (conj D1 (conj D2 (conj D3 D4))).
  - intros i Hi. pose proof (header_zero_field i Hi) as H0.
    assert (H1 : nth_error (f_data (out w1)) i = Some x00)
      by (rewrite D1; now apply nth_error_extend).
    assert (H2 : nth_error (f_data (out w2)) i = Some x00)
      by (rewrite D2; now apply nth_error_extend).
    assert (H3 : nth_error (f_data (out w3)) i = Some x00)
      by (rewrite D3; now apply nth_error_extend).
    repeat split; auto. rewrite D4. now apply nth_error_extend.
Qed.

End Claims.

(** ** The theorems at a concrete world *)

Lemma generate_phone_patterns_lines_witness :
  at_end demo_world /\
  exists (n : Z) (w' : world) (recs : list (list byte)),
    generate_phone_patterns 2 demo_world = Ok n w' /\
    f_data (out w') = f_data (out demo_world) ++ List.concat recs /\
    Z.of_nat (List.length recs) = Z.max 0 2 /\
    Forall phone_line recs /\
    n = len (List.concat recs).
Proof.
  split; [reflexivity|].
  apply (generate_phone_patterns_lines 2 demo_world). reflexivity.
Defined.

Lemma generate_domain_patterns_lines_witness :
  at_end demo_world /\
  exists (n : Z) (w' : world) (recs : list (list byte)),
    generate_domain_patterns 2 demo_world = Ok n w' /\
    f_data (out w') = f_data (out demo_world) ++ List.concat recs /\
    Z.of_nat (List.length recs) = Z.max 0 2 /\
    Forall domain_line recs /\
    n = len (List.concat recs).
Proof.
  split; [reflexivity|].
  apply (generate_domain_patterns_lines 2 demo_world). reflexivity.
Defined.

Lemma generate_phrase_signatures_records_witness :
  at_end demo_world /\
  exists (n : Z) (w' : world) (recs : list (list byte)),
    generate_phrase_signatures 1 demo_world = Ok n w' /\
    f_data (out w') = f_data (out demo_world) ++ List.concat recs /\
    Z.of_nat (List.length recs) = Z.max 0 1 /\
    Forall (fun rec => sig_record rec /\ List.length rec = 21%nat) recs /\
    n = len (List.concat recs).
Proof.
  split; [reflexivity|].
  apply (generate_phrase_signatures_records 1 demo_world). reflexivity.
Defined.

Lemma generate_metadata_blocks_overshoot_witness :
  at_end demo_world /\ 0 < 3 /\
  exists (n : Z) (w' : world) (blocks : list (list byte)),
    generate_metadata_blocks 3 demo_world = Ok n w' /\
    f_data (out w') = f_data (out demo_world) ++ List.concat blocks /\
    n = len (List.concat blocks) /\
    3 <= n <= 3 + 6 /\
    n = padded_size 3 /\
    (1 <= 3 mod 4096 <= 4090 -> n = 3 + 6) /\
    Forall (fun b => meta_block b /\ len b <= 4096) blocks.
Proof.
  split; [reflexivity|]. split; [reflexivity|].
  apply (generate_metadata_blocks_overshoot 3 demo_world); reflexivity.
Defined.

Lemma generate_metadata_blocks_100_witness :
  at_end demo_world /\
  exists (w' : world) (data : list byte),
    generate_metadata_blocks 100 demo_world = Ok 106 w' /\
    List.length data = 100%nat /\
    f_data (out w')
      = f_data (out demo_world) ++ (Py.encode "META:" ++ data) ++ Py.encode Py.nl /\
    len (f_data (out w')) = len (f_data (out demo_world)) + 106.
Proof.
  split; [reflexivity|].
  apply (generate_metadata_blocks_100 demo_world). reflexivity.
Defined.

Lemma generate_metadata_blocks_terminates_witness :
  (-5 <= 0 /\ generate_metadata_blocks (-5) demo_world = Ok 0 demo_world) /\
  (0 < 3 /\
   exists (written' : Z) (v' : world),
     meta_body 3 0 demo_world = Ok written' v' /\ 0 + 7 <= written').
Proof.
  split; split.
  - discriminate.
  - apply (proj1 (proj2 (generate_metadata_blocks_terminates (-5) demo_world))).
    discriminate.
  - reflexivity.
  - apply (proj2 (proj2 (generate_metadata_blocks_terminates 3 demo_world))).
    reflexivity.
Defined.

(** ** Record sizes *)

Lemma encoded_length (s : string) : List.length (Py.encode s) = String.length s.
Proof.
  unfold Py.encode, list_byte_of_string.
  induction s as [|c s IH]; simpl; [reflexivity|]. now rewrite IH.
Qed.

Lemma append_length (s t : string) :
  String.length (s ++ t) = (String.length s + String.length t)%nat.
Proof. induction s as [|c s IH]; simpl; [reflexivity|]. now rewrite IH. Qed.

Lemma leet_string_length (s : string) :
  String.length (leet_string s) = String.length s.
Proof. induction s as [|c s IH]; simpl; [reflexivity|]. now rewrite IH. Qed.

(** A property checked on every element of one of the script's tables. *)
Lemma table_check {A} (p : A -> bool) (table : list A) (x : A) :
  forallb p table = true -> In x table -> p x = true.
Proof. intros Hall Hin. rewrite forallb_forall in Hall. now apply Hall. Qed.

Definition length_between (lo hi : nat) (s : string) : bool :=
  (lo <=? String.length s)%nat && (String.length s <=? hi)%nat.

Lemma length_between_spec (lo hi : nat) (s : string) :
  length_between lo hi s = true -> (lo <= String.length s <= hi)%nat.
Proof.
  unfold length_between. intros H. apply andb_true_iff in H.
  destruct H as [H1 H2]. apply Nat.leb_le in H1. apply Nat.leb_le in H2. lia.
Qed.

(** [str(n)] has one to three characters for [n] from 1 to 999. *)
Lemma str_length_upto_999 (n : Z) :
  1 <= n <= 999 -> (1 <= String.length (Py.str n) <= 3)%nat.
Proof.
  intros Hn. apply length_between_spec.
  assert (Hall : forallb (fun k => length_between 1 3 (Py.str (Z.of_nat k)))
                   (seq 1 999) = true) by (vm_compute; reflexivity).
  rewrite <- (Z2Nat.id n) by lia.
  apply (table_check (fun k => length_between 1 3 (Py.str (Z.of_nat k)))
           (seq 1 999) (Z.to_nat n) Hall).
  apply in_seq. lia.
Qed.

Lemma phone_line_size (rec : list byte) :
  phone_line rec -> 14 <= len rec <= 22.
Proof.
  intros (prefix & suffix & -> & Hp & Hs & _).
  assert (Hpl : (1 <= String.length prefix <= 3)%nat).
  { apply length_between_spec.
    apply (table_check (length_between 1 3) COUNTRY_PREFIXES prefix);
      [reflexivity|exact Hp]. }
  unfold len. rewrite encoded_length, !append_length.
  change (String.length "PHONE:") with 6%nat.
  change (String.length Py.nl) with 1%nat. lia.
Qed.

Lemma domain_line_size (rec : list byte) :
  domain_line rec -> 15 <= len rec <= 35.
Proof.
  intros (sub & base & tld & n & -> & Ht & Hb & Hs & Hn).
  assert (Htl : (3 <= String.length tld <= 6)%nat).
  { apply length_between_spec.
    apply (table_check (length_between 3 6) tlds tld); [reflexivity|exact Ht]. }
  assert (Hsl : (0 <= String.length sub <= 8)%nat).
  { apply length_between_spec.
    apply (table_check (length_between 0 8) subdomains sub);
      [reflexivity|exact Hs]. }
  assert (Hbl : (3 <= String.length base <= 10)%nat).
  { destruct Hb as [Hb | (b0 & Hb0 & ->)].
    - apply length_between_spec.
      apply (table_check (length_between 3 10) DOMAIN_PATTERNS base);
        [reflexivity|exact Hb].
    - rewrite leet_string_length. apply length_between_spec.
      apply (table_check (length_between 3 10) DOMAIN_PATTERNS b0);
        [reflexivity|exact Hb0]. }
  pose proof (str_length_upto_999 n Hn) as Hnl.
  unfold len. rewrite encoded_length, !append_length.
  change (String.length "DOMAIN:") with 7%nat.
  change (String.length Py.nl) with 1%nat. lia.
Qed.

(** Records whose sizes lie between two bounds add up to a size between
    the bounds times the number of records. *)
Lemma concat_size_between (lo hi : Z) (recs : list (list byte)) :
  Forall (fun rec => lo <= len rec <= hi) recs ->
  lo * Z.of_nat (List.length recs) <= len (List.concat recs)
  <= hi * Z.of_nat (List.length recs).
Proof.
  unfold len. induction 1 as [|rec recs Hrec _ IH]; simpl; [lia|].
  rewrite length_app. lia.
Qed.

Section Sizes.

Context {G : Type} `{RS : RandomSource G}.

(** X1.  [generate_phone_patterns] writes between 14 and 22 bytes per
    record: what it returns, which is what the file grows by, lies between
    14 and 22 times the number of records. *)
Theorem generate_phone_patterns_size (count : Z) (w : world) :
  at_end w ->
  exists (n : Z) (w' : world),
    generate_phone_patterns count w = Ok n w' /\
    len (f_data (out w')) = len (f_data (out w)) + n /\
    14 * Z.max 0 count <= n <= 22 * Z.max 0 count.
Proof.
  intros Hw.
  destruct (generate_phone_patterns_writes count w Hw)
    as (n & bs & w' & E & D & _ & recs & -> & Hl & Hf & Hn).
  exists n, w'. split; [exact E|]. split.
  - rewrite D. unfold len in *. rewrite length_app. lia.
  - rewrite Hn, <- Hl. apply concat_size_between.
    eapply Forall_impl; [|exact Hf]. exact phone_line_size.
Qed.

(** X2.  [generate_domain_patterns] writes between 15 and 35 bytes per
    record. *)
Theorem generate_domain_patterns_size (count : Z) (w : world) :
  at_end w ->
  exists (n : Z) (w' : world),
    generate_domain_patterns count w = Ok n w' /\
    len (f_data (out w')) = len (f_data (out w)) + n /\
    15 * Z.max 0 count <= n <= 35 * Z.max 0 count.
Proof.
  intros Hw.
  destruct (generate_domain_patterns_writes count w Hw)
    as (n & bs & w' & E & D & _ & recs & -> & Hl & Hf & Hn).
  exists n, w'. split; [exact E|]. split.
  - rewrite D. unfold len in *. rewrite length_app. lia.
  - rewrite Hn, <- Hl. apply concat_size_between.
    eapply Forall_impl; [|exact Hf]. exact domain_line_size.
Qed.

(** X3.  [generate_phrase_signatures] returns exactly 21 times the number
    of records, and the file grows by as much. *)
Theorem generate_phrase_signatures_size (count : Z) (w : world) :
  at_end w ->
  exists (w' : world),
    generate_phrase_signatures count w = Ok (21 * Z.max 0 count) w' /\
    len (f_data (out w')) = len (f_data (out w)) + 21 * Z.max 0 count.
Proof.
  intros Hw.
  destruct (generate_phrase_signatures_writes count w Hw)
    as (n & bs & w' & E & D & _ & recs & -> & Hl & Hf & Hn).
  assert (Hsize : 21 * Z.of_nat (List.length recs) <= len (List.concat recs)
                  <= 21 * Z.of_nat (List.length recs)).
  { apply concat_size_between. eapply Forall_impl; [|exact Hf].
    intros rec Hrec. unfold len. rewrite (sig_record_length rec Hrec). lia. }
  assert (En : n = 21 * Z.max 0 count) by lia. rewrite En in E.
  exists w'. split; [exact E|].
  rewrite D. unfold len in *. rewrite length_app. lia.
Qed.

End Sizes.

(** ** The size of the database that [main] writes *)

Section MainSize.

Context {G : Type} `{RS : RandomSource G}.

(** X4.  In every run of [main] the three counted phases write at most
    279,000,000 bytes, far below [TARGET_SIZE_BYTES], so the metadata phase
    always runs: [total] ends between the target and the target plus 6,
    and the file, header included, has between 25 and 31 bytes more than
    the target. *)
Theorem main_always_pads (g : G) (old : list byte) :
  exists n1 w1 n2 w2 n3 w3 n4 r w,
    generate_phone_patterns 2500000 (World g (File header 25)) = Ok n1 w1 /\
    generate_domain_patterns 2500000 w1 = Ok n2 w2 /\
    generate_phrase_signatures 6500000 w2 = Ok n3 w3 /\
    35000000 <= n1 <= 55000000 /\
    37500000 <= n2 <= 87500000 /\
    n3 = 136500000 /\
    0 < TARGET_SIZE_BYTES - (n1 + n2 + n3) /\
    generate_metadata_blocks (TARGET_SIZE_BYTES - (n1 + n2 + n3)) w3 = Ok n4 w /\
    main g old = Ok r w /\
    total r = n1 + n2 + n3 + n4 /\
    TARGET_SIZE_BYTES <= total r <= TARGET_SIZE_BYTES + 6 /\
    TARGET_SIZE_BYTES + 25 <= len (database r) <= TARGET_SIZE_BYTES + 31.
Proof.
  destruct (run_with_phases TARGET_SIZE_BYTES 2500000 2500000 6500000 g old)
    as (n1 & w1 & n2 & w2 & n3 & w3 & n4 & r & w & phones & domains & sigs & metas
        & E1 & E2 & E3 & E4 & Erun & -> & D1 & D2 & D3 & D4
        & (N1 & N2 & N3 & N4) & (LP & FP) & (LD & FD) & (LS & FS) & _ & _ & Hsome).
  assert (B1 : 14 * Z.of_nat (List.length phones) <= n1
               <= 22 * Z.of_nat (List.length phones)).
  { rewrite N1. apply concat_size_between.
    eapply Forall_impl; [|exact FP]. exact phone_line_size. }
  assert (B2 : 15 * Z.of_nat (List.length domains) <= n2
               <= 35 * Z.of_nat (List.length domains)).
  { rewrite N2. apply concat_size_between.
    eapply Forall_impl; [|exact FD]. exact domain_line_size. }
  assert (B3 : 21 * Z.of_nat (List.length sigs) <= n3
               <= 21 * Z.of_nat (List.length sigs)).
  { rewrite N3. apply concat_size_between.
    eapply Forall_impl; [|exact FS].
    intros rec Hrec. unfold len. rewrite (sig_record_length rec Hrec). lia. }
  assert (Hpos : 0 < TARGET_SIZE_BYTES - (n1 + n2 + n3))
    by (unfold TARGET_SIZE_BYTES; lia).
  specialize (Hsome Hpos).
  assert (Hb : (0 <? TARGET_SIZE_BYTES - (n1 + n2 + n3)) = true)
    by (apply Z.ltb_lt; exact Hpos).
  rewrite Hb in E4.
  assert (L : len (f_data (out w)) = 25 + (n1 + n2 + n3 + n4)).
  { rewrite D4, D3, D2, D1. unfold len in *. rewrite !length_app.
    change (List.length header) with 25%nat. lia. }
  exists n1, w1, n2, w2, n3, w3, n4, (Run 0 (n1 + n2 + n3 + n4) (f_data (out w))), w.
  cbn [total database].
  split; [exact E1|]. split; [exact E2|]. split; [exact E3|].
  split; [lia|]. split; [lia|]. split; [lia|]. split; [exact Hpos|].
  split; [exact E4|]. split; [exact Erun|]. split; [reflexivity|].
  split; lia.
Qed.

End MainSize.

(** ** No exception, wherever the file is positioned *)

Section NoRaise.

Context {G : Type} `{RS : RandomSource G}.

(** [returns m R]: from every world [m] returns normally, with a value
    that satisfies [R]. *)
Definition returns {A} (m : M A) (R : A -> Prop) : Prop :=
  forall w : @world G, exists a w', m w = Ok a w' /\ R a.

Lemma returns_ret {A} (a : A) (R : A -> Prop) : R a -> returns (ret a) R.
Proof. intros Ha w. exists a, w. auto. Qed.

Lemma returns_bind {A B} (m : M A) (k : A -> M B) R Q :
  returns m R -> (forall a, R a -> returns (k a) Q) -> returns (bind m k) Q.
Proof.
  intros Hm Hk w. destruct (Hm w) as (a & w1 & E1 & Ra).
  destruct (Hk a Ra w1) as (b & w2 & E2 & Qb).
  exists b, w2. unfold bind. rewrite E1. auto.
Qed.

Lemma returns_with_rng {A} (op : G -> A * G) (R : A -> Prop) :
  (forall g, R (fst (op g))) -> returns (with_rng op) R.
Proof.
  intros HR w. unfold with_rng. specialize (HR (rng w)).
  destruct (op (rng w)) as [a g]. eauto.
Qed.

Lemma returns_choice {A} (seq : list A) :
  seq <> [] -> returns (random_choice seq) (fun x => In x seq).
Proof.
  intros Hne. destruct seq as [|x0 seq']; [congruence|].
  unfold random_choice. set (l := x0 :: seq').
  apply returns_bind with (R := fun i => 0 <= i < Z.of_nat (List.length l)).
  - apply returns_with_rng. intros g. apply randbelow_range. subst l. simpl. lia.
  - intros i Hi. destruct (nth_error l (Z.to_nat i)) as [x|] eqn:E.
    + apply returns_ret. eapply nth_error_In; eauto.
    + apply nth_error_None in E. lia.
Qed.

Lemma returns_randint (a b : Z) :
  a <= b -> returns (random_randint a b) (fun r => a <= r <= b).
Proof.
  intros Hab. unfold random_randint.
  destruct (b <? a) eqn:E; [apply Z.ltb_lt in E; lia|].
  apply returns_bind with (R := fun r => 0 <= r < b - a + 1).
  - apply returns_with_rng. intros g. apply randbelow_range. lia.
  - intros r Hr. apply returns_ret. lia.
Qed.

Lemma returns_collect {A} (n : nat) (e : M A) :
  returns e (fun _ => True) -> returns (collect n e) (fun _ => True).
Proof.
  intros He. induction n as [|n IH]; simpl.
  - now apply returns_ret.
  - eapply returns_bind; [exact He|]. intros x _.
    eapply returns_bind; [exact IH|]. intros xs _. now apply returns_ret.
Qed.

Lemma returns_f_write (b : list byte) : returns (f_write b) (fun _ => True).
Proof. intros w. unfold f_write. eauto. Qed.

Lemma returns_for_range {S : Type} (count : Z) (body : S -> M S) (s0 : S) :
  (forall s, returns (body s) (fun _ => True)) ->
  returns (for_range count body s0) (fun _ => True).
Proof.
  intros Hbody. unfold for_range. generalize (Z.to_N count) as k.
  induction k as [|k IH] using N.peano_ind.
  - simpl. now apply returns_ret.
  - rewrite N.iter_succ. eapply returns_bind; [exact IH|].
    intros s _. apply Hbody.
Qed.

Lemma phone_body_returns (written : Z) :
  returns (phone_body written) (fun _ => True).
Proof.
  unfold phone_body.
  eapply returns_bind; [apply returns_choice; discriminate|]. intros prefix _.
  eapply returns_bind; [apply returns_randint; lia|]. intros suffix_len _.
  eapply returns_bind;
    [apply returns_with_rng with (R := fun _ => True); auto|]. intros r _.
  apply returns_bind with (R := fun _ => True).
  - destruct (float_lt r float_0_3).
    + eapply returns_bind; [apply returns_randint; lia|]. intros d _.
      now apply returns_ret.
    + eapply returns_bind.
      * apply returns_collect.
        eapply returns_bind; [apply returns_randint; lia|]. intros d _.
        now apply returns_ret.
      * intros ds _. now apply returns_ret.
  - intros suffix _.
    eapply returns_bind; [apply returns_f_write|]. intros _ _.
    now apply returns_ret.
Qed.

Lemma domain_body_returns (written : Z) :
  returns (domain_body written) (fun _ => True).
Proof.
  unfold domain_body.
  eapply returns_bind; [apply returns_choice; discriminate|]. intros base _.
  eapply returns_bind;
    [apply returns_with_rng with (R := fun _ => True); auto|]. intros r _.
  eapply returns_bind; [apply returns_choice; discriminate|]. intros tld _.
  eapply returns_bind; [apply returns_choice; discriminate|]. intros sub _.
  eapply returns_bind; [apply returns_randint; lia|]. intros n _.
  eapply returns_bind; [apply returns_f_write|]. intros _ _.
  now apply returns_ret.
Qed.

Lemma sig_body_returns (written : Z) :
  returns (sig_body written) (fun _ => True).
Proof.
  unfold sig_body.
  eapply returns_bind; [apply returns_choice; discriminate|]. intros p _.
  eapply returns_bind; [apply returns_randint; lia|]. intros n _.
  eapply returns_bind; [apply returns_f_write|]. intros _ _.
  now apply returns_ret.
Qed.

Lemma for_range_nothing {S : Type} (count : Z) (body : S -> M S) (s0 : S)
    (w : @world G) :
  count <= 0 -> for_range count body s0 w = Ok s0 w.
Proof.
  intros Hle. unfold for_range.
  replace (Z.to_N count) with 0%N by lia. reflexivity.
Qed.

(** X5.  None of the four generators raises, whatever the count (or
    [remaining]), the random source, the file content and the position in
    the file; and with a count (or [remaining]) of zero or less each
    returns 0 and leaves the file and the random source untouched. *)
Theorem generators_never_raise (k : Z) (w : world) :
  (exists n w', generate_phone_patterns k w = Ok n w') /\
  (exists n w', generate_domain_patterns k w = Ok n w') /\
  (exists n w', generate_phrase_signatures k w = Ok n w') /\
  (exists n w', generate_metadata_blocks k w = Ok n w') /\
  (k <= 0 ->
   generate_phone_patterns k w = Ok 0 w /\
   generate_domain_patterns k w = Ok 0 w /\
   generate_phrase_signatures k w = Ok 0 w /\
   generate_metadata_blocks k w = Ok 0 w).
Proof.
  repeat split.
  - destruct (returns_for_range k phone_body 0 phone_body_returns w)
      as (n & w' & E & _). eauto.
  - destruct (returns_for_range k domain_body 0 domain_body_returns w)
      as (n & w' & E & _). eauto.
  - destruct (returns_for_range k sig_body 0 sig_body_returns w)
      as (n & w' & E & _). eauto.
  - apply meta_loop_terminates, meta_fuel_enough.
  - now apply for_range_nothing.
  - now apply for_range_nothing.
  - now apply for_range_nothing.
  - unfold generate_metadata_blocks.
    destruct (meta_fuel k); simpl;
      (replace (0 <? k) with false by (symmetry; apply Z.ltb_ge; lia));
      reflexivity.
Qed.

End NoRaise.

(** ** Splitting a counted phase in two *)

Section Splitting.

Context {G : Type} `{RS : RandomSource G}.

(** The result [r] with [d] added to the value it returns. *)
Definition shift (d : Z) (r : @result G Z) : @result G Z :=
  match r with
  | Ok n w => Ok (n + d) w
  | Raise e => Raise e
  end.

(** One computation after another, the values returned added up. *)
Definition and_then (m1 m2 : M Z) (w : @world G) : @result G Z :=
  match m1 w with
  | Ok n1 w1 => shift n1 (m2 w1)
  | Raise e => Raise e
  end.

Lemma bind_shift {A} (d : Z) (m : M A) (k k' : A -> M Z) (w : world) :
  (forall a v, k' a v = shift d (k a v)) ->
  bind m k' w = shift d (bind m k w).
Proof.
  intros Hk. unfold bind. destruct (m w) as [a w1|e]; [apply Hk|reflexivity].
Qed.

Lemma ret_shift (d x y : Z) (w : @world G) :
  x = y + d -> ret x w = shift d (ret y w).
Proof. intros ->. reflexivity. Qed.

Lemma phone_body_shift (s d : Z) (w : world) :
  phone_body (s + d) w = shift d (phone_body s w).
Proof.
  unfold phone_body. cbv zeta.
  apply bind_shift; intros prefix w1. apply bind_shift; intros suffix_len w2.
  apply bind_shift; intros r w3. apply bind_shift; intros suffix w4.
  apply bind_shift; intros u w5. apply ret_shift. lia.
Qed.

Lemma domain_body_shift (s d : Z) (w : world) :
  domain_body (s + d) w = shift d (domain_body s w).
Proof.
  unfold domain_body. cbv zeta.
  apply bind_shift; intros base w1. apply bind_shift; intros r w2.
  apply bind_shift; intros tld w3. apply bind_shift; intros sub w4.
  apply bind_shift; intros n w5. apply bind_shift; intros u w6.
  apply ret_shift. lia.
Qed.

Lemma sig_body_shift (s d : Z) (w : world) :
  sig_body (s + d) w = shift d (sig_body s w).
Proof.
  unfold sig_body. cbv zeta.
  apply bind_shift; intros p w1. apply bind_shift; intros n w2.
  apply bind_shift; intros u w3. apply ret_shift. lia.
Qed.

(** Starting the counter at [s0] instead of 0 adds [s0] to the result. *)
Lemma iter_shift (body : Z -> M Z) (k : N) (s0 : Z) (w : world) :
  (forall s d v, body (s + d) v = shift d (body s v)) ->
  N.iter k (fun acc => bind acc body) (ret s0) w
  = shift s0 (N.iter k (fun acc => bind acc body) (ret 0) w).
Proof.
  intros Hbody. induction k as [|k IH] using N.peano_ind.
  - reflexivity.
  - rewrite !N.iter_succ. unfold bind at 1 3. rewrite IH.
    destruct (N.iter k (fun acc => bind acc body) (ret 0) w) as [n w1|e];
      [|reflexivity].
    simpl. apply Hbody.
Qed.

Lemma for_range_add (body : Z -> M Z) (a b : Z) (w : world) :
  (forall s d v, body (s + d) v = shift d (body s v)) ->
  0 <= a -> 0 <= b ->
  for_range (a + b) body 0 w
  = and_then (for_range a body 0) (for_range b body 0) w.
Proof.
  intros Hbody Ha Hb. unfold for_range, and_then.
  replace (Z.to_N (a + b)) with (Z.to_N b + Z.to_N a)%N by lia.
  generalize (Z.to_N b) as k. clear Hb b.
  induction k as [|k IH] using N.peano_ind.
  - rewrite N.add_0_l. simpl.
    destruct (N.iter (Z.to_N a) (fun acc => bind acc body) (ret 0) w)
      as [n w1|e]; [|reflexivity].
    unfold ret. simpl. reflexivity.
  - rewrite N.add_succ_l, !N.iter_succ. unfold bind at 1. rewrite IH.
    destruct (N.iter (Z.to_N a) (fun acc => bind acc body) (ret 0) w)
      as [n1 w1|e]; [|reflexivity].
    unfold bind at 2.
    destruct (N.iter k (fun acc => bind acc body) (ret 0) w1) as [n2 w2|e];
      [|reflexivity].
    simpl. apply Hbody.
Qed.

(** X6.  A counted phase can be split: generating [a + b] records in one
    call is generating [a] records and then [b] records from the world the
    first call left, the two returned byte counts added up.  This holds for
    the three counted generators. *)
Theorem generators_split (a b : Z) (w : world) :
  0 <= a -> 0 <= b ->
  generate_phone_patterns (a + b) w
    = and_then (generate_phone_patterns a) (generate_phone_patterns b) w /\
  generate_domain_patterns (a + b) w
    = and_then (generate_domain_patterns a) (generate_domain_patterns b) w /\
  generate_phrase_signatures (a + b) w
    = and_then (generate_phrase_signatures a) (generate_phrase_signatures b) w.
Proof.
  intros Ha Hb. repeat split.
  - apply for_range_add; auto. exact phone_body_shift.
  - apply for_range_add; auto. exact domain_body_shift.
  - apply for_range_add; auto. exact sig_body_shift.
Qed.

End Splitting.

(** ** What the lines are made of *)

Lemma all_digits_app (s t : string) :
  all_digits (s ++ t) = all_digits s && all_digits t.
Proof.
  unfold all_digits. induction s as [|c s IH]; simpl; [reflexivity|].
  rewrite IH. apply andb_assoc.
Qed.

Lemma repeated_is_digits (s : string) :
  one_digit_repeated s = true -> all_digits s = true.
Proof.
  destruct s as [|c rest]; simpl; [discriminate|].
  intros H. apply andb_true_iff in H. destruct H as [Hc Hrest].
  unfold all_digits. simpl. rewrite Hc. simpl.
  induction (list_ascii_of_string rest) as [|c' l IH]; simpl in *; [reflexivity|].
  apply andb_true_iff in Hrest. destruct Hrest as [Hc' Hl].
  apply Ascii.eqb_eq in Hc'. subst c'. rewrite Hc. simpl. now apply IH.
Qed.

(** Records that are all of the form [f x] with [Q x] are the image of a
    list of such [x]. *)
Lemma records_of {A} (f : A -> list byte) (Q : A -> Prop) (recs : list (list byte)) :
  Forall (fun rec => exists x, rec = f x /\ Q x) recs ->
  exists xs, recs = map f xs /\ Forall Q xs.
Proof.
  induction 1 as [|rec recs (x & -> & Hx) _ (xs & -> & Hxs)].
  - exists []. auto.
  - exists (x :: xs). auto.
Qed.

(** The bytes of a phone record for the pattern [p]. *)
Definition phone_record_of (p : string) : list byte :=
  Py.encode ("PHONE:" ++ p ++ Py.nl)%string.

Lemma phone_line_pattern (rec : list byte) :
  phone_line rec ->
  exists p, rec = phone_record_of p /\
            (all_digits p = true /\ 7 <= Z.of_nat (String.length p) <= 15).
Proof.
  intros (prefix & suffix & -> & Hp & Hs & Hshape).
  exists (prefix ++ suffix)%string. split; [reflexivity|].
  assert (Hpd : all_digits prefix = true)
    by (apply (table_check all_digits COUNTRY_PREFIXES prefix);
        [reflexivity|exact Hp]).
  assert (Hpl : (1 <= String.length prefix <= 3)%nat).
  { apply length_between_spec.
    apply (table_check (length_between 1 3) COUNTRY_PREFIXES prefix);
      [reflexivity|exact Hp]. }
  split.
  - rewrite all_digits_app, Hpd. simpl.
    destruct Hshape as [Hr|Hd]; [now apply repeated_is_digits|exact Hd].
  - rewrite append_length. lia.
Qed.

(** ** Reading the lines back *)

(** The lines of a byte string, each with its newline; a last line
    without newline is kept as it is. *)
Fixpoint split_lines (bs : list byte) : list (list byte) :=
  match bs with
  | [] => []
  | b :: rest =>
      if Byte.eqb b x0a then [b] :: split_lines rest
      else
        match split_lines rest with
        | [] => [[b]]
        | line :: lines => (b :: line) :: lines
        end
  end.

Definition nl_free (s : string) : bool :=
  forallb (fun b => negb (Byte.eqb b x0a)) (Py.encode s).

Lemma nl_free_app (s t : string) : nl_free (s ++ t) = nl_free s && nl_free t.
Proof.
  unfold nl_free, Py.encode, list_byte_of_string.
  induction s as [|c s IH]; simpl; [reflexivity|].
  rewrite IH. apply andb_assoc.
Qed.

Lemma digit_not_newline (c : ascii) :
  is_digit c = true -> negb (Byte.eqb (byte_of_ascii c) x0a) = true.
Proof.
  destruct c as [[] [] [] [] [] [] [] []]; intros H;
    first [ reflexivity | discriminate H ].
Qed.

Lemma digits_nl_free (s : string) : all_digits s = true -> nl_free s = true.
Proof.
  unfold all_digits, nl_free, Py.encode, list_byte_of_string.
  induction s as [|c s IH]; simpl; [reflexivity|].
  intros H. apply andb_true_iff in H. destruct H as [Hc Hs].
  rewrite (digit_not_newline c Hc). simpl. now apply IH.
Qed.

Lemma split_lines_line (body rest : list byte) :
  forallb (fun b => negb (Byte.eqb b x0a)) body = true ->
  split_lines ((body ++ [x0a]) ++ rest) = (body ++ [x0a]) :: split_lines rest.
Proof.
  induction body as [|b body IH]; simpl; intros H; [reflexivity|].
  apply andb_true_iff in H. destruct H as [Hb Hbody].
  apply negb_true_iff in Hb. rewrite Hb, (IH Hbody). reflexivity.
Qed.

Lemma encode_line (s : string) :
  Py.encode (s ++ Py.nl) = Py.encode s ++ [x0a].
Proof.
  unfold Py.encode, list_byte_of_string.
  induction s as [|c s IH]; [reflexivity|].
  cbn [String.append list_ascii_of_string map app]. now rewrite IH.
Qed.

Lemma split_lines_concat (f : string -> string) (xs : list string) :
  Forall (fun x => nl_free (f x) = true) xs ->
  split_lines (List.concat (map (fun x => Py.encode (f x ++ Py.nl)%string) xs))
  = map (fun x => Py.encode (f x ++ Py.nl)%string) xs.
Proof.
  induction 1 as [|x xs Hx _ IH]; [reflexivity|].
  cbn [map List.concat].
  rewrite encode_line, split_lines_line by exact Hx. now rewrite IH.
Qed.

(** The bytes of a domain record for the domain name [d]. *)
Definition domain_record_of (d : string) : list byte :=
  Py.encode ("DOMAIN:" ++ d ++ Py.nl)%string.

Lemma str_nl_free_upto_999 (n : Z) : 1 <= n <= 999 -> nl_free (Py.str n) = true.
Proof.
  intros Hn.
  assert (Hall : forallb (fun k => nl_free (Py.str (Z.of_nat k))) (seq 1 999) = true)
    by (vm_compute; reflexivity).
  rewrite <- (Z2Nat.id n) by lia.
  apply (table_check (fun k => nl_free (Py.str (Z.of_nat k)))
           (seq 1 999) (Z.to_nat n) Hall).
  apply in_seq. lia.
Qed.

Lemma domain_line_name (rec : list byte) :
  domain_line rec ->
  exists d, rec = domain_record_of d /\ nl_free d = true.
Proof.
  intros (sub & base & tld & n & -> & Ht & Hb & Hs & Hn).
  exists (sub ++ base ++ Py.str n ++ tld)%string. split; [reflexivity|].
  rewrite !nl_free_app.
  rewrite (table_check nl_free subdomains sub) by (reflexivity || exact Hs).
  rewrite (table_check nl_free tlds tld) by (reflexivity || exact Ht).
  rewrite (str_nl_free_upto_999 n Hn).
  destruct Hb as [Hb | (b0 & Hb0 & ->)].
  - rewrite (table_check nl_free DOMAIN_PATTERNS base)
      by (reflexivity || exact Hb). reflexivity.
  - rewrite (table_check (fun b => nl_free (leet_string b)) DOMAIN_PATTERNS b0)
      by (reflexivity || exact Hb0). reflexivity.
Qed.

Section Lines.

Context {G : Type} `{RS : RandomSource G}.

(** X7.  Every phone pattern that [generate_phone_patterns] writes is a
    string of 7 to 15 decimal digits: the file grows by the records
    "PHONE:" + pattern + newline of [count] such patterns. *)
Theorem generate_phone_patterns_digits (count : Z) (w : world) :
  at_end w ->
  exists (n : Z) (w' : world) (patterns : list string),
    generate_phone_patterns count w = Ok n w' /\
    f_data (out w') = f_data (out w) ++ List.concat (map phone_record_of patterns) /\
    Z.of_nat (List.length patterns) = Z.max 0 count /\
    Forall (fun p => all_digits p = true /\
                     7 <= Z.of_nat (String.length p) <= 15) patterns.
Proof.
  intros Hw.
  destruct (generate_phone_patterns_writes count w Hw)
    as (n & bs & w' & E & D & _ & recs & -> & Hl & Hf & Hn).
  destruct (records_of phone_record_of
              (fun p => all_digits p = true /\
                        7 <= Z.of_nat (String.length p) <= 15) recs)
    as (patterns & -> & Hps).
  { eapply Forall_impl; [|exact Hf]. exact phone_line_pattern. }
  exists n, w', patterns. rewrite length_map in Hl. auto.
Qed.

(** X8.  The phone and the domain phases write text lines: cutting what
    either phase appended to the file after each newline byte gives back
    its records, one per line, [count] of them. *)
Theorem text_phases_split_into_records (count : Z) (w : world) :
  at_end w ->
  (exists (n : Z) (w' : world) (bs : list byte),
      generate_phone_patterns count w = Ok n w' /\
      f_data (out w') = f_data (out w) ++ bs /\
      Z.of_nat (List.length (split_lines bs)) = Z.max 0 count /\
      List.concat (split_lines bs) = bs /\
      Forall phone_line (split_lines bs)) /\
  (exists (n : Z) (w' : world) (bs : list byte),
      generate_domain_patterns count w = Ok n w' /\
      f_data (out w') = f_data (out w) ++ bs /\
      Z.of_nat (List.length (split_lines bs)) = Z.max 0 count /\
      List.concat (split_lines bs) = bs /\
      Forall domain_line (split_lines bs)).
Proof.
  intros Hw. split.
  - destruct (generate_phone_patterns_writes count w Hw)
      as (n & bs & w' & E & D & _ & recs & -> & Hl & Hf & Hn).
    destruct (records_of phone_record_of (fun p => nl_free p = true) recs)
      as (ps & Eps & Hps).
    { eapply Forall_impl; [|exact Hf]. intros rec Hrec.
      destruct (phone_line_pattern rec Hrec) as (p & -> & Hd & _).
      exists p. split; [reflexivity|now apply digits_nl_free]. }
    assert (Es : split_lines (List.concat recs) = recs).
    { rewrite Eps. unfold phone_record_of.
      apply (split_lines_concat (fun p => "PHONE:" ++ p)%string).
      eapply Forall_impl; [|exact Hps]. intros p Hp.
      rewrite nl_free_app, Hp. reflexivity. }
    exists n, w', (List.concat recs). rewrite Es. auto.
  - destruct (generate_domain_patterns_writes count w Hw)
      as (n & bs & w' & E & D & _ & recs & -> & Hl & Hf & Hn).
    destruct (records_of domain_record_of (fun d => nl_free d = true) recs)
      as (ds & Eds & Hds).
    { eapply Forall_impl; [|exact Hf]. exact domain_line_name. }
    assert (Es : split_lines (List.concat recs) = recs).
    { rewrite Eds. unfold domain_record_of.
      apply (split_lines_concat (fun d => "DOMAIN:" ++ d)%string).
      eapply Forall_impl; [|exact Hds]. intros d Hd.
      rewrite nl_free_app, Hd. reflexivity. }
    exists n, w', (List.concat recs). rewrite Es. auto.
Qed.

End Lines.

(** ** The homoglyph substitution *)

Definition is_ola (c : ascii) : bool :=
  Ascii.eqb c "o" || Ascii.eqb c "l" || Ascii.eqb c "a".

Lemma leet_char_facts (c : ascii) :
  leet (leet c) = leet c /\ is_ola (leet c) = false /\
  (is_ola c = false -> leet c = c).
Proof.
  destruct c as [[] [] [] [] [] [] [] []]; repeat split; intros;
    first [ reflexivity | discriminate ].
Qed.

(** X9.  The substitution applied to a base token with probability 0.2
    (o to 0, l to 1, a to 4) keeps the token's length, leaves none of the
    letters o, l, a in it, changes nothing in a token that has none of the
    three, and applied twice gives what it gives once. *)
Theorem homoglyphs_properties (base : string) :
  String.length (homoglyphs base) = String.length base /\
  forallb (fun c => negb (is_ola c)) (list_ascii_of_string (homoglyphs base)) = true /\
  (forallb (fun c => negb (is_ola c)) (list_ascii_of_string base) = true ->
   homoglyphs base = base) /\
  homoglyphs (homoglyphs base) = homoglyphs base.
Proof.
  rewrite !homoglyphs_leet. repeat split.
  - apply leet_string_length.
  - induction base as [|c s IH]; simpl; [reflexivity|].
    destruct (leet_char_facts c) as (_ & H & _). now rewrite H, IH.
  - induction base as [|c s IH]; simpl; [reflexivity|].
    intros H. apply andb_true_iff in H. destruct H as [Hc Hs].
    apply negb_true_iff in Hc.
    destruct (leet_char_facts c) as (_ & _ & Hid). now rewrite (Hid Hc), IH.
  - induction base as [|c s IH]; simpl; [reflexivity|].
    destruct (leet_char_facts c) as (H & _ & _). now rewrite H, IH.
Qed.

(** ** The padding blocks, one by one *)

Lemma padded_size_exact (remaining : Z) :
  0 < remaining ->
  (padded_size remaining = remaining <-> remaining mod 4096 = 0) /\
  remaining <= padded_size remaining <= remaining + 6.
Proof.
  intros Hpos. unfold padded_size.
  replace (remaining <=? 0) with false by (symmetry; apply Z.leb_gt; lia).
  pose proof (Z.mod_pos_bound remaining 4096 ltac:(lia)) as Hm.
  destruct (remaining mod 4096 =? 0) eqn:E0.
  - apply Z.eqb_eq in E0. split; [tauto|lia].
  - apply Z.eqb_neq in E0.
    destruct (remaining mod 4096 <=? 4090) eqn:E1.
    + split; [split; intros; lia|lia].
    + apply Z.leb_gt in E1. split; [split; intros; lia|lia].
Qed.

(** The number of blocks that [d] missing bytes take. *)
Definition blocks_needed (d : Z) : Z :=
  if d <=? 0 then 0 else (d + 4095) / 4096.

Lemma blocks_needed_step (d : Z) :
  0 < d ->
  blocks_needed d = 1 + blocks_needed (d - (Z.min 4090 d + 6)) /\
  (0 < d - (Z.min 4090 d + 6) -> Z.min 4090 d + 6 = 4096).
Proof.
  intros Hd. unfold blocks_needed.
  replace (d <=? 0) with false by (symmetry; apply Z.leb_gt; lia).
  destruct (Z.le_gt_cases d 4090) as [Hsmall|Hbig].
  - rewrite Z.min_r by lia.
    replace (d - (d + 6) <=? 0) with true by (symmetry; apply Z.leb_le; lia).
    split; [|lia].
    assert ((d + 4095) / 4096 = 1); [|lia].
    symmetry. apply (Z.div_unique (d + 4095) 4096 1 (d - 1)); lia.
  - rewrite Z.min_l by lia. split; [|lia].
    replace (d - (4090 + 6)) with (d - 4096) by lia.
    destruct (d - 4096 <=? 0) eqn:E.
    + apply Z.leb_le in E.
      assert ((d + 4095) / 4096 = 1); [|lia].
      symmetry. apply (Z.div_unique (d + 4095) 4096 1 (d - 1)); lia.
    + replace (d + 4095) with (d - 4096 + 4095 + 1 * 4096) by lia.
      rewrite Z.div_add by lia. lia.
Qed.

Section Blocks.

Context {G : Type} `{RS : RandomSource G}.

Lemma meta_loop_blocks (fuel : nat) :
  forall remaining written,
    remaining - written <= block_size * Z.of_nat fuel ->
    writes (meta_loop fuel remaining written)
      (fun n bs => exists blocks,
           bs = List.concat blocks /\
           Forall meta_block blocks /\
           n = written + len bs /\
           Z.of_nat (List.length blocks) = blocks_needed (remaining - written) /\
           Forall (fun b => len b = 4096) (removelast blocks)).
Proof.
  unfold block_size.
  induction fuel as [|fuel IH]; intros remaining written Hfuel; simpl.
  - destruct (written <? remaining) eqn:E; [apply Z.ltb_lt in E; lia|].
    apply Z.ltb_ge in E. apply writes_ret. exists []. unfold blocks_needed.
    replace (remaining - written <=? 0) with true
      by (symmetry; apply Z.leb_le; lia).
    unfold len. simpl. repeat split; auto. lia.
  - destruct (written <? remaining) eqn:E.
    + apply Z.ltb_lt in E.
      eapply writes_bind; [apply meta_body_writes; exact E|].
      intros written' rec (-> & Hblock & Hrec).
      destruct (blocks_needed_step (remaining - written) ltac:(lia))
        as [Hcount Hfull].
      eapply writes_weaken; [apply IH; lia|].
      intros n bs (blocks & -> & Hmeta & -> & Hlen & Hall).
      replace (remaining - (written + len rec))
        with (remaining - written - (Z.min 4090 (remaining - written) + 6))
        in Hlen by lia.
      exists (rec :: blocks). split; [reflexivity|].
      split; [constructor; assumption|]. split.
      { unfold len. cbn [List.concat]. rewrite length_app. lia. }
      split.
      * cbn [List.length]. lia.
      * destruct blocks as [|b blocks']; [constructor|].
        change (removelast (rec :: b :: blocks'))
          with (rec :: removelast (b :: blocks')).
        constructor; [|exact Hall].
        rewrite Hrec. apply Hfull.
        unfold blocks_needed in Hlen.
        destruct (remaining - written - (Z.min 4090 (remaining - written) + 6) <=? 0)
          eqn:E0; [simpl in Hlen; lia|]. apply Z.leb_gt in E0. exact E0.
    + apply Z.ltb_ge in E. apply writes_ret. exists []. unfold blocks_needed.
      replace (remaining - written <=? 0) with true
        by (symmetry; apply Z.leb_le; lia).
      unfold len. simpl. repeat split; auto. lia.
Qed.

(** X10.  [generate_metadata_blocks] returns [padded_size remaining]
    wherever the file is positioned: exactly [remaining] if and only if
    [remaining] is a multiple of 4096, and between 1 and 6 bytes more
    otherwise. *)
Theorem generate_metadata_blocks_exact (remaining : Z) (w : world) :
  0 < remaining ->
  exists w' : world,
    generate_metadata_blocks remaining w = Ok (padded_size remaining) w' /\
    (padded_size remaining = remaining <-> remaining mod 4096 = 0) /\
    remaining <= padded_size remaining <= remaining + 6.
Proof.
  intros Hpos.
  destruct (meta_loop_total (meta_fuel remaining) remaining 0 w
              (meta_fuel_enough remaining)) as (w' & E).
  replace (0 + padded_size (remaining - 0)) with (padded_size remaining) in E
    by (replace (remaining - 0) with remaining by lia; lia).
  exists w'. split; [exact E|]. now apply padded_size_exact.
Qed.

(** X11.  For [remaining > 0], what [generate_metadata_blocks] appends is
    [ceil(remaining / 4096)] META blocks and nothing else: each block is
    the tag "META:", 1 to 4090 data bytes and a newline; every block but
    the last has exactly 4096 bytes, tag and newline included; and the
    value returned is the number of bytes of these blocks. *)
Theorem generate_metadata_blocks_count (remaining : Z) (w : world) :
  at_end w ->
  0 < remaining ->
  exists (n : Z) (w' : world) (blocks : list (list byte)),
    generate_metadata_blocks remaining w = Ok n w' /\
    f_data (out w') = f_data (out w) ++ List.concat blocks /\
    Forall meta_block blocks /\
    n = len (List.concat blocks) /\
    Z.of_nat (List.length blocks) = (remaining + 4095) / 4096 /\
    Forall (fun b => len b = 4096) (removelast blocks).
Proof.
  intros Hw Hpos.
  destruct (meta_loop_blocks (meta_fuel remaining) remaining 0
              (meta_fuel_enough remaining) w Hw)
    as (n & bs & w' & E & D & _ & blocks & -> & Hmeta & Hn & Hlen & Hall).
  exists n, w', blocks.
  split; [exact E|]. split; [exact D|]. split; [exact Hmeta|].
  split; [lia|]. split; [|exact Hall].
  rewrite Hlen. unfold blocks_needed.
  replace (remaining - 0 <=? 0) with false by (symmetry; apply Z.leb_gt; lia).
  now replace (remaining - 0) with remaining by lia.
Qed.

End Blocks.

(** ** Signatures *)

(** Records of one size [k] sit at the multiples of [k]. *)
Lemma fixed_stride {A} (k : nat) (recs : list (list A)) (i : nat) :
  Forall (fun rec => List.length rec = k) recs ->
  (i < List.length recs)%nat ->
  firstn k (skipn (k * i) (List.concat recs)) = nth i recs [].
Proof.
  intros Hall. revert i. induction Hall as [|rec recs Hrec _ IH]; intros i Hi.
  - simpl in Hi. lia.
  - destruct i as [|i]; cbn [List.concat nth].
    + rewrite Nat.mul_0_r. cbn [skipn].
      rewrite <- Hrec at 1. rewrite firstn_app, Nat.sub_diag, firstn_all.
      cbn [firstn]. apply app_nil_r.
    + replace (k * S i)%nat with (List.length rec + k * i)%nat by lia.
      rewrite skipn_app, skipn_all2 by lia.
      replace (List.length rec + k * i - List.length rec)%nat with (k * i)%nat
        by lia.
      cbn [app]. apply IH. simpl in Hi. lia.
Qed.

Section Stride.

Context {G : Type} `{RS : RandomSource G}.

(** X13.  The signature phase writes an array of 21-byte records: record
    number [i] is read back from the 21 bytes at offset [21 * i] of what
    the phase appended, and it is a signature record. *)
Theorem signatures_at_fixed_stride (count : Z) (w : world) :
  at_end w ->
  exists (n : Z) (w' : world) (bs : list byte),
    generate_phrase_signatures count w = Ok n w' /\
    f_data (out w') = f_data (out w) ++ bs /\
    len bs = 21 * Z.max 0 count /\
    forall i : nat,
      Z.of_nat i < Z.max 0 count ->
      sig_record (firstn 21 (skipn (21 * i) bs)).
Proof.
  intros Hw.
  destruct (generate_phrase_signatures_writes count w Hw)
    as (n & bs & w' & E & D & _ & recs & -> & Hl & Hf & Hn).
  assert (H21 : Forall (fun rec => List.length rec = 21%nat) recs).
  { eapply Forall_impl; [|exact Hf]. exact sig_record_length. }
  exists n, w', (List.concat recs). repeat split; auto.
  - rewrite <- Hl.
    assert (Hs : 21 * Z.of_nat (List.length recs) <= len (List.concat recs)
                 <= 21 * Z.of_nat (List.length recs)); [|lia].
    apply concat_size_between. eapply Forall_impl; [|exact H21].
    intros rec Hrec. unfold len. rewrite Hrec. lia.
  - intros i Hi. rewrite (fixed_stride 21 recs i H21) by lia.
    rewrite Forall_forall in Hf. apply Hf. apply nth_In. lia.
Qed.

End Stride.

(** ** These properties at a concrete world *)

Lemma generate_phone_patterns_size_witness :
  at_end demo_world /\
  exists (n : Z) (w' : world),
    generate_phone_patterns 2 demo_world = Ok n w' /\
    len (f_data (out w')) = len (f_data (out demo_world)) + n /\
    14 * Z.max 0 2 <= n <= 22 * Z.max 0 2.
Proof.
  split; [reflexivity|].
  apply (generate_phone_patterns_size 2 demo_world). reflexivity.
Defined.

Lemma generate_domain_patterns_size_witness :
  at_end demo_world /\
  exists (n : Z) (w' : world),
    generate_domain_patterns 2 demo_world = Ok n w' /\
    len (f_data (out w')) = len (f_data (out demo_world)) + n /\
    15 * Z.max 0 2 <= n <= 35 * Z.max 0 2.
Proof.
  split; [reflexivity|].
  apply (generate_domain_patterns_size 2 demo_world). reflexivity.
Defined.

Lemma generate_phrase_signatures_size_witness :
  at_end demo_world /\
  exists (w' : world),
    generate_phrase_signatures 3 demo_world = Ok (21 * Z.max 0 3) w' /\
    len (f_data (out w')) = len (f_data (out demo_world)) + 21 * Z.max 0 3.
Proof.
  split; [reflexivity|].
  apply (generate_phrase_signatures_size 3 demo_world). reflexivity.
Defined.

Lemma generators_split_witness :
  0 <= 1 /\ 0 <= 2 /\
  generate_phone_patterns (1 + 2) demo_world
    = and_then (generate_phone_patterns 1) (generate_phone_patterns 2) demo_world /\
  generate_domain_patterns (1 + 2) demo_world
    = and_then (generate_domain_patterns 1) (generate_domain_patterns 2) demo_world /\
  generate_phrase_signatures (1 + 2) demo_world
    = and_then (generate_phrase_signatures 1) (generate_phrase_signatures 2)
        demo_world.
Proof.
  split; [discriminate|]. split; [discriminate|].
  apply (generators_split 1 2 demo_world); discriminate.
Defined.

Lemma generate_phone_patterns_digits_witness :
  at_end demo_world /\
  exists (n : Z) (w' : world) (patterns : list string),
    generate_phone_patterns 2 demo_world = Ok n w' /\
    f_data (out w')
      = f_data (out demo_world) ++ List.concat (map phone_record_of patterns) /\
    Z.of_nat (List.length patterns) = Z.max 0 2 /\
    Forall (fun p => all_digits p = true /\
                     7 <= Z.of_nat (String.length p) <= 15) patterns.
Proof.
  split; [reflexivity|].
  apply (generate_phone_patterns_digits 2 demo_world). reflexivity.
Defined.

Lemma text_phases_split_into_records_witness :
  at_end demo_world /\
  (exists (n : Z) (w' : world) (bs : list byte),
      generate_phone_patterns 2 demo_world = Ok n w' /\
      f_data (out w') = f_data (out demo_world) ++ bs /\
      Z.of_nat (List.length (split_lines bs)) = Z.max 0 2 /\
      List.concat (split_lines bs) = bs /\
      Forall phone_line (split_lines bs)) /\
  (exists (n : Z) (w' : world) (bs : list byte),
      generate_domain_patterns 2 demo_world = Ok n w' /\
      f_data (out w') = f_data (out demo_world) ++ bs /\
      Z.of_nat (List.length (split_lines bs)) = Z.max 0 2 /\
      List.concat (split_lines bs) = bs /\
      Forall domain_line (split_lines bs)).
Proof.
  split; [reflexivity|].
  apply (text_phases_split_into_records 2 demo_world). reflexivity.
Defined.

Lemma generate_metadata_blocks_exact_witness :
  0 < 4091 /\
  exists w' : world,
    generate_metadata_blocks 4091 demo_world = Ok (padded_size 4091) w' /\
    (padded_size 4091 = 4091 <-> 4091 mod 4096 = 0) /\
    4091 <= padded_size 4091 <= 4091 + 6.
Proof.
  split; [reflexivity|].
  apply (generate_metadata_blocks_exact 4091 demo_world). reflexivity.
Defined.

Lemma generate_metadata_blocks_count_witness :
  at_end demo_world /\ 0 < 5000 /\
  exists (n : Z) (w' : world) (blocks : list (list byte)),
    generate_metadata_blocks 5000 demo_world = Ok n w' /\
    f_data (out w') = f_data (out demo_world) ++ List.concat blocks /\
    Forall meta_block blocks /\
    n = len (List.concat blocks) /\
    Z.of_nat (List.length blocks) = (5000 + 4095) / 4096 /\
    Forall (fun b => len b = 4096) (removelast blocks).
Proof.
  split; [reflexivity|]. split; [reflexivity|].
  apply (generate_metadata_blocks_count 5000 demo_world); reflexivity.
Defined.

Lemma signatures_at_fixed_stride_witness :
  at_end demo_world /\
  exists (n : Z) (w' : world) (bs : list byte),
    generate_phrase_signatures 3 demo_world = Ok n w' /\
    f_data (out w') = f_data (out demo_world) ++ bs /\
    len bs = 21 * Z.max 0 3 /\
    forall i : nat,
      Z.of_nat i < Z.max 0 3 ->
      sig_record (firstn 21 (skipn (21 * i) bs)).
Proof.
  split; [reflexivity|].
  apply (signatures_at_fixed_stride 3 demo_world). reflexivity.
Defined.

(** The padding for 4091 bytes is one full block: five bytes too many. *)
Example demo_padded_size :
  padded_size 4091 = 4096 /\ padded_size 4096 = 4096 /\
  padded_size 4097 = 4103 /\ padded_size 1 = 7 /\ padded_size 0 = 0.
Proof. repeat split. Qed.

(** ** The strings that are hashed *)

Definition is_ascii (s : string) : bool :=
  forallb (fun c => (nat_of_ascii c <? 128)%nat) (list_ascii_of_string s).

Lemma is_ascii_app (s t : string) : is_ascii (s ++ t) = is_ascii s && is_ascii t.
Proof.
  unfold is_ascii. induction s as [|c s IH]; simpl; [reflexivity|].
  rewrite IH. apply andb_assoc.
Qed.

Lemma digit_is_ascii (c : ascii) :
  is_digit c = true -> (nat_of_ascii c <? 128)%nat = true.
Proof.
  unfold is_digit. intros H. apply andb_true_iff in H. destruct H as [_ H].
  apply Nat.leb_le in H. apply Nat.ltb_lt. lia.
Qed.

Lemma digits_are_ascii (s : string) : all_digits s = true -> is_ascii s = true.
Proof.
  unfold all_digits, is_ascii.
  induction (list_ascii_of_string s) as [|c l IH]; simpl; [reflexivity|].
  intros H. apply andb_true_iff in H. destruct H as [Hc Hl].
  now rewrite (digit_is_ascii c Hc), IH.
Qed.

Lemma uint_digits (d : Decimal.uint) :
  all_digits (NilEmpty.string_of_uint d) = true.
Proof. induction d; simpl; auto. Qed.

(** [str(n)] is a string of digits when [n] is not negative. *)
Lemma str_digits (n : Z) : 0 <= n -> all_digits (Py.str n) = true.
Proof.
  intros Hn. unfold Py.str. destruct n as [|p|p]; [reflexivity| |lia].
  simpl. unfold NilZero.string_of_uint.
  destruct (Pos.to_uint p); try reflexivity; apply uint_digits.
Qed.

(** X12.  Every string that [generate_phrase_signatures] hashes, a phrase
    of [phrases] followed by an underscore and the decimal writing of a
    number between 1000 and 99999, is made of ASCII characters only, so
    that its encoding is defined and is the string's own characters; and
    [phrase_hash] gives 16 bytes for it. *)
Theorem phrase_hash_16_bytes (p : string) (n : Z) :
  In p phrases ->
  1000 <= n <= 99999 ->
  is_ascii (p ++ "_" ++ Py.str n) = true /\
  List.length (Py.encode (p ++ "_" ++ Py.str n))
    = String.length (p ++ "_" ++ Py.str n) /\
  List.length (phrase_hash (p ++ "_" ++ Py.str n)) = 16%nat.
Proof.
  intros Hp Hn. split; [|split].
  - rewrite !is_ascii_app.
    rewrite (table_check is_ascii phrases p) by (reflexivity || exact Hp).
    rewrite (digits_are_ascii (Py.str n)) by (apply str_digits; lia).
    reflexivity.
  - apply encoded_length.
  - apply phrase_hash_length.
Qed.

Lemma phrase_hash_16_bytes_witness :
  In "urgent"%string phrases /\ 1000 <= 1008 <= 99999 /\
  is_ascii ("urgent" ++ "_" ++ Py.str 1008) = true /\
  List.length (Py.encode ("urgent" ++ "_" ++ Py.str 1008))
    = String.length ("urgent" ++ "_" ++ Py.str 1008) /\
  List.length (phrase_hash ("urgent" ++ "_" ++ Py.str 1008)) = 16%nat.
Proof.
  assert (Hin : In "urgent"%string phrases) by (simpl; tauto).
  assert (Hn : 1000 <= 1008 <= 99999) by (split; discriminate).
  split; [exact Hin|]. split; [exact Hn|].
  exact (phrase_hash_16_bytes "urgent" 1008 Hin Hn).
Defined.

(** ** The metadata phase in a whole run *)

Section WholeRun.

Context {G : Type} `{RS : RandomSource G}.

(** A run of [main]: the three counted phases stay below the target, so
    the metadata phase is entered, with [TARGET_SIZE_BYTES] minus the
    bytes of the three phases. *)
Lemma main_run (g : G) (old : list byte) :
  exists n1 w1 n2 w2 n3 w3 n4 w phones domains sigs metas,
    generate_phone_patterns 2500000 (World g (File header 25)) = Ok n1 w1 /\
    generate_domain_patterns 2500000 w1 = Ok n2 w2 /\
    generate_phrase_signatures 6500000 w2 = Ok n3 w3 /\
    0 < TARGET_SIZE_BYTES - (n1 + n2 + n3) /\
    generate_metadata_blocks (TARGET_SIZE_BYTES - (n1 + n2 + n3)) w3 = Ok n4 w /\
    main g old = Ok (Run 0 (n1 + n2 + n3 + n4) (f_data (out w))) w /\
    (f_data (out w1) = header ++ List.concat phones /\
     f_data (out w2) = f_data (out w1) ++ List.concat domains /\
     f_data (out w3) = f_data (out w2) ++ List.concat sigs /\
     f_data (out w) = f_data (out w3) ++ List.concat metas) /\
    (n1 = len (List.concat phones) /\ n2 = len (List.concat domains) /\
     n3 = len (List.concat sigs) /\ n4 = len (List.concat metas)) /\
    (Z.of_nat (List.length phones) = 2500000 /\ Forall phone_line phones) /\
    (Z.of_nat (List.length domains) = 2500000 /\ Forall domain_line domains) /\
    (Z.of_nat (List.length sigs) = 6500000 /\ Forall sig_record sigs) /\
    Forall meta_block metas /\
    n1 + n2 + n3 <= 279000000 /\
    TARGET_SIZE_BYTES - (n1 + n2 + n3) <= n4
    <= TARGET_SIZE_BYTES - (n1 + n2 + n3) + 6.
Proof.
  destruct (run_with_phases TARGET_SIZE_BYTES 2500000 2500000 6500000 g old)
    as (n1 & w1 & n2 & w2 & n3 & w3 & n4 & r & w & phones & domains & sigs & metas
        & E1 & E2 & E3 & E4 & Erun & -> & D1 & D2 & D3 & D4
        & (N1 & N2 & N3 & N4) & (LP & FP) & (LD & FD) & (LS & FS) & FM & _ & Hsome).
  assert (B1 : 14 * Z.of_nat (List.length phones) <= n1
               <= 22 * Z.of_nat (List.length phones)).
  { rewrite N1. apply concat_size_between.
    eapply Forall_impl; [|exact FP]. exact phone_line_size. }
  assert (B2 : 15 * Z.of_nat (List.length domains) <= n2
               <= 35 * Z.of_nat (List.length domains)).
  { rewrite N2. apply concat_size_between.
    eapply Forall_impl; [|exact FD]. exact domain_line_size. }
  assert (B3 : 21 * Z.of_nat (List.length sigs) <= n3
               <= 21 * Z.of_nat (List.length sigs)).
  { rewrite N3. apply concat_size_between.
    eapply Forall_impl; [|exact FS].
    intros rec Hrec. unfold len. rewrite (sig_record_length rec Hrec). lia. }
  assert (Hpos : 0 < TARGET_SIZE_BYTES - (n1 + n2 + n3))
    by (unfold TARGET_SIZE_BYTES; lia).
  specialize (Hsome Hpos).
  assert (Hb : (0 <? TARGET_SIZE_BYTES - (n1 + n2 + n3)) = true)
    by (apply Z.ltb_lt; exact Hpos).
  rewrite Hb in E4.
  exists n1, w1, n2, w2, n3, w3, n4, w, phones, domains, sigs, metas.
  split; [exact E1|]. split; [exact E2|]. split; [exact E3|].
  split; [exact Hpos|]. split; [exact E4|]. split; [exact Erun|].
  split; [exact (conj D1 (conj D2 (conj D3 D4)))|].
  split; [exact (conj N1 (conj N2 (conj N3 N4)))|].
  split; [exact (conj LP FP)|]. split; [exact (conj LD FD)|].
  split; [exact (conj LS FS)|]. split; [exact FM|].
  split; [lia|exact Hsome].
Qed.

(** C2.  The metadata phase only adds.  For [remaining > 0],
    [generate_metadata_blocks] returns at least [remaining] and the file
    grows by what it returns.  In a run with any target size and any three
    record counts ([main] is the run with [TARGET_SIZE_BYTES], 2,500,000,
    2,500,000 and 6,500,000) the file holds the 25-byte header and [total]
    more bytes, at least what the three counted phases wrote; when these
    fall short of the target the file reaches the target; and when they do
    not, the metadata phase is skipped: the world after the signature
    phase is the final one. *)
Theorem metadata_phase_only_adds
    (target phone_count domain_count sig_count : Z) (g : G) (old : list byte) :
  (forall (remaining : Z) (v : world),
      at_end v -> 0 < remaining ->
      exists (n : Z) (v' : world),
        generate_metadata_blocks remaining v = Ok n v' /\
        remaining <= n /\
        len (f_data (out v')) = len (f_data (out v)) + n) /\
  main g old = run_with TARGET_SIZE_BYTES 2500000 2500000 6500000 g old /\
  exists n1 w1 n2 w2 n3 w3 r w,
    generate_phone_patterns phone_count (World g (File header 25)) = Ok n1 w1 /\
    generate_domain_patterns domain_count w1 = Ok n2 w2 /\
    generate_phrase_signatures sig_count w2 = Ok n3 w3 /\
    run_with target phone_count domain_count sig_count g old = Ok r w /\
    len (database r) = 25 + total r /\
    len (f_data (out w3)) = 25 + (n1 + n2 + n3) /\
    len (f_data (out w3)) <= len (database r) /\
    (0 < target - (n1 + n2 + n3) ->
     target <= total r /\ target <= len (database r)) /\
    (target - (n1 + n2 + n3) <= 0 ->
     w = w3 /\ total r = n1 + n2 + n3 /\ database r = f_data (out w3)).
Proof.
  split; [|split; [reflexivity|]].
  - intros remaining v Hv Hpos.
    destruct (generate_metadata_blocks_writes remaining v Hv)
      as (n & bs & v' & E & D & _ & blocks & -> & _ & Hn & _ & Hsome).
    exists n, v'. repeat split; [exact E|apply Hsome; exact Hpos|].
    rewrite D. unfold len in *. rewrite length_app. lia.
  - destruct (run_with_phases target phone_count domain_count sig_count g old)
      as (n1 & w1 & n2 & w2 & n3 & w3 & n4 & r & w & phones & domains & sigs & metas
          & E1 & E2 & E3 & E4 & Erun & -> & D1 & D2 & D3 & D4
          & (N1 & N2 & N3 & N4) & _ & _ & _ & _ & Hnone & Hsome).
    exists n1, w1, n2, w2, n3, w3, (Run 0 (n1 + n2 + n3 + n4) (f_data (out w))), w.
    assert (L3 : len (f_data (out w3)) = 25 + (n1 + n2 + n3)).
    { rewrite D3, D2, D1. unfold len in *. rewrite !length_app.
      change (List.length header) with 25%nat. lia. }
    assert (L4 : len (f_data (out w)) = 25 + (n1 + n2 + n3 + n4)).
    { rewrite D4. unfold len in *. rewrite length_app. lia. }
    assert (0 <= n4) by (unfold len in N4; lia).
    cbn [database total].
    split; [exact E1|]. split; [exact E2|]. split; [exact E3|].
    split; [exact Erun|].
    repeat match goal with |- _ /\ _ => split end; try lia.
    intros Hneg. apply Z.ltb_ge in Hneg. rewrite Hneg in E4.
    destruct E4 as [-> ->]. repeat split. lia.
Qed.

(** C3, as the code has it.  In every run of [main] the header is written
    first into the fresh file, then [generate_phone_patterns] runs with
    count 2,500,000, [generate_domain_patterns] with 2,500,000 and
    [generate_phrase_signatures] with 6,500,000, each from the world the
    previous one left, and the file is the 25-byte header followed by what
    the four phases appended, in this order.  The metadata phase is called
    with [TARGET_SIZE_BYTES] minus the bytes of the three counted phases:
    the running total does not count the header, so this is 25 more than
    the target minus the bytes written so far.  The call stands under the
    test [0 < remaining], which a run with another target or other counts
    can fail, and which every run of [main] passes. *)
Theorem main_phases_in_order (g : G) (old : list byte) :
  (exists n1 w1 n2 w2 n3 w3 n4 r w phones domains sigs metas,
      bind make_header f_write (World g (open_wb old))
        = Ok tt (World g (File header 25)) /\
      generate_phone_patterns 2500000 (World g (File header 25)) = Ok n1 w1 /\
      generate_domain_patterns 2500000 w1 = Ok n2 w2 /\
      generate_phrase_signatures 6500000 w2 = Ok n3 w3 /\
      0 < TARGET_SIZE_BYTES - (n1 + n2 + n3) /\
      generate_metadata_blocks (TARGET_SIZE_BYTES - (n1 + n2 + n3)) w3 = Ok n4 w /\
      len (f_data (out w3)) = 25 + (n1 + n2 + n3) /\
      TARGET_SIZE_BYTES - (n1 + n2 + n3)
        = TARGET_SIZE_BYTES - len (f_data (out w3)) + 25 /\
      main g old = Ok r w /\
      r = Run 0 (n1 + n2 + n3 + n4) (f_data (out w)) /\
      List.length header = 25%nat /\
      database r = header ++ List.concat phones ++ List.concat domains
                     ++ List.concat sigs ++ List.concat metas /\
      (f_data (out w1) = header ++ List.concat phones /\
       f_data (out w2) = f_data (out w1) ++ List.concat domains /\
       f_data (out w3) = f_data (out w2) ++ List.concat sigs /\
       f_data (out w) = f_data (out w3) ++ List.concat metas) /\
      (n1 = len (List.concat phones) /\ n2 = len (List.concat domains) /\
       n3 = len (List.concat sigs) /\ n4 = len (List.concat metas)) /\
      (Z.of_nat (List.length phones) = 2500000 /\ Forall phone_line phones) /\
      (Z.of_nat (List.length domains) = 2500000 /\ Forall domain_line domains) /\
      (Z.of_nat (List.length sigs) = 6500000 /\ Forall sig_record sigs) /\
      Forall meta_block metas) /\
  main g old = run_with TARGET_SIZE_BYTES 2500000 2500000 6500000 g old /\
  (forall target phone_count domain_count sig_count : Z,
      exists n1 w1 n2 w2 n3 w3 n4 w,
        generate_phone_patterns phone_count (World g (File header 25)) = Ok n1 w1 /\
        generate_domain_patterns domain_count w1 = Ok n2 w2 /\
        generate_phrase_signatures sig_count w2 = Ok n3 w3 /\
        (if 0 <? target - (n1 + n2 + n3)
         then generate_metadata_blocks (target - (n1 + n2 + n3)) w3 = Ok n4 w
         else n4 = 0 /\ w = w3) /\
        run_with target phone_count domain_count sig_count g old
          = Ok (Run 0 (n1 + n2 + n3 + n4) (f_data (out w))) w).
Proof.
  split; [|split; [reflexivity|]].
  - destruct (main_run g old)
      as (n1 & w1 & n2 & w2 & n3 & w3 & n4 & w & phones & domains & sigs & metas
          & E1 & E2 & E3 & Hpos & E4 & Emain & (D1 & D2 & D3 & D4)
          & HN & HP & HD & HS & HM & _ & _).
    assert (L3 : len (f_data (out w3)) = 25 + (n1 + n2 + n3)).
    { destruct HN as (N1 & N2 & N3 & _).
      rewrite D3, D2, D1. unfold len in *. rewrite !length_app.
      change (List.length header) with 25%nat. lia. }
    exists n1, w1, n2, w2, n3, w3, n4, (Run 0 (n1 + n2 + n3 + n4) (f_data (out w))),
      w, phones, domains, sigs, metas.
    split; [reflexivity|].
    split; [exact E1|]. split; [exact E2|]. split; [exact E3|].
    split; [exact Hpos|]. split; [exact E4|]. split; [exact L3|].
    split; [lia|]. split; [exact Emain|].
    split; [reflexivity|]. split; [reflexivity|].
    split.
    { cbn [database]. rewrite D4, D3, D2, D1. now rewrite <- !app_assoc. }
    split; [exact (conj D1 (conj D2 (conj D3 D4)))|].
    split; [exact HN|]. split; [exact HP|]. split; [exact HD|].
    split; [exact HS|]. exact HM.
  - intros target phone_count domain_count sig_count.
    destruct (run_with_phases target phone_count domain_count sig_count g old)
      as (n1 & w1 & n2 & w2 & n3 & w3 & n4 & r & w & _ & _ & _ & _
          & E1 & E2 & E3 & E4 & Erun & -> & _).
    exists n1, w1, n2, w2, n3, w3, n4, w.
    split; [exact E1|]. split; [exact E2|]. split; [exact E3|].
    split; [exact E4|]. exact Erun.
Qed.

End WholeRun.

(** ** Whole runs on the tape *)

(** The first part at [remaining = 3]; a run with target 20, which the
    three counted phases pass (105 bytes), so that the metadata phase is
    skipped; and a run with target 200, where it is not. *)
Lemma metadata_phase_only_adds_witness :
  (at_end demo_world /\ 0 < 3 /\
   exists (n : Z) (v' : world),
     generate_metadata_blocks 3 demo_world = Ok n v' /\
     3 <= n /\
     len (f_data (out v')) = len (f_data (out demo_world)) + n) /\
  (exists n1 w1 n2 w2 n3 w3 r w,
      generate_phone_patterns 2 (World demo_tape (File header 25)) = Ok n1 w1 /\
      generate_domain_patterns 2 w1 = Ok n2 w2 /\
      generate_phrase_signatures 1 w2 = Ok n3 w3 /\
      run_with 20 2 2 1 demo_tape [] = Ok r w /\
      20 - (n1 + n2 + n3) <= 0 /\
      w = w3 /\ total r = n1 + n2 + n3 /\ database r = f_data (out w3)) /\
  (exists n1 w1 n2 w2 n3 w3 r w,
      generate_phone_patterns 2 (World demo_tape (File header 25)) = Ok n1 w1 /\
      generate_domain_patterns 2 w1 = Ok n2 w2 /\
      generate_phrase_signatures 1 w2 = Ok n3 w3 /\
      run_with 200 2 2 1 demo_tape [] = Ok r w /\
      0 < 200 - (n1 + n2 + n3) /\
      200 <= total r /\ 200 <= len (database r)).
Proof.
  split; [|split].
  - split; [reflexivity|]. split; [reflexivity|].
    apply (proj1 (metadata_phase_only_adds 0 0 0 0 demo_tape [])); reflexivity.
  - destruct (proj2 (proj2 (metadata_phase_only_adds 20 2 2 1 demo_tape [])))
      as (n1 & w1 & n2 & w2 & n3 & w3 & r & w
          & E1 & E2 & E3 & Erun & _ & _ & _ & _ & Hskip).
    assert (Hle : 20 - (n1 + n2 + n3) <= 0).
    { pose proof E1 as F1. vm_compute in F1. injection F1 as Hn1 Hw1.
      pose proof E2 as F2. rewrite <- Hw1 in F2. vm_compute in F2.
      injection F2 as Hn2 Hw2.
      pose proof E3 as F3. rewrite <- Hw2 in F3. vm_compute in F3.
      injection F3 as Hn3 _.
      rewrite <- Hn1, <- Hn2, <- Hn3. discriminate. }
    exists n1, w1, n2, w2, n3, w3, r, w.
    split; [exact E1|]. split; [exact E2|]. split; [exact E3|].
    split; [exact Erun|]. split; [exact Hle|]. exact (Hskip Hle).
  - destruct (proj2 (proj2 (metadata_phase_only_adds 200 2 2 1 demo_tape [])))
      as (n1 & w1 & n2 & w2 & n3 & w3 & r & w
          & E1 & E2 & E3 & Erun & _ & _ & _ & Hpad & _).
    assert (Hpos : 0 < 200 - (n1 + n2 + n3)).
    { pose proof E1 as F1. vm_compute in F1. injection F1 as Hn1 Hw1.
      pose proof E2 as F2. rewrite <- Hw1 in F2. vm_compute in F2.
      injection F2 as Hn2 Hw2.
      pose proof E3 as F3. rewrite <- Hw2 in F3. vm_compute in F3.
      injection F3 as Hn3 _.
      rewrite <- Hn1, <- Hn2, <- Hn3. reflexivity. }
    exists n1, w1, n2, w2, n3, w3, r, w.
    split; [exact E1|]. split; [exact E2|]. split; [exact E3|].
    split; [exact Erun|]. split; [exact Hpos|]. exact (Hpad Hpos).
Defined.

(** The running total leaves the header out.  Were the metadata phase
    called with [TARGET_SIZE_BYTES] minus the bytes written so far, the
    header's 25 among them, [total] would end at most 19 bytes below the
    target; it ends at the target or above.  So no run of [main], and not
    the run on the tape, is the run of that call. *)
Lemma main_remaining_is_not_target_minus_written :
  ~ exists n1 w1 n2 w2 n3 w3 n4 w,
      generate_phone_patterns 2500000 (World demo_tape (File header 25)) = Ok n1 w1 /\
      generate_domain_patterns 2500000 w1 = Ok n2 w2 /\
      generate_phrase_signatures 6500000 w2 = Ok n3 w3 /\
      generate_metadata_blocks
        (TARGET_SIZE_BYTES - len (f_data (out w3))) w3 = Ok n4 w /\
      main demo_tape [] = Ok (Run 0 (n1 + n2 + n3 + n4) (f_data (out w))) w.
Proof.
  intros (m1 & v1 & m2 & v2 & m3 & v3 & m4 & v & F1 & F2 & F3 & F4 & Fmain).
  destruct (main_run demo_tape [])
    as (n1 & w1 & n2 & w2 & n3 & w3 & n4 & w & phones & domains & sigs & metas
        & E1 & E2 & E3 & Hpos & E4 & Emain & (D1 & D2 & D3 & D4)
        & (N1 & N2 & N3 & N4) & _ & _ & _ & _ & Hmax & Hn4).
  rewrite F1 in E1. injection E1 as Hm1 Hv1.
  rewrite Hv1 in F2. rewrite F2 in E2. injection E2 as Hm2 Hv2.
  rewrite Hv2 in F3. rewrite F3 in E3. injection E3 as Hm3 Hv3.
  rewrite Fmain in Emain. injection Emain as Htotal _ _.
  assert (L3 : len (f_data (out w3)) = 25 + (n1 + n2 + n3)).
  { rewrite D3, D2, D1. unfold len in *. rewrite !length_app.
    change (List.length header) with 25%nat. lia. }
  rewrite Hv3, L3 in F4.
  set (r := TARGET_SIZE_BYTES - (25 + (n1 + n2 + n3))) in F4.
  assert (Hr : 0 < r) by (subst r; unfold TARGET_SIZE_BYTES; lia).
  destruct (meta_loop_total (meta_fuel r) r 0 w3 (meta_fuel_enough r))
    as (v' & F4').
  unfold generate_metadata_blocks in F4. rewrite F4 in F4'.
  injection F4' as Hm4 _.
  replace (r - 0) with r in Hm4 by lia.
  destruct (padded_size_exact r Hr) as [_ Hp].
  subst r. lia.
Qed.
